(** * Bookstore backend: account, catalog and fulfillment services

    A shallow embedding of [be/model/user.py] and [be/model/seller.py].

    The services are thin layers over a document store (pymongo), a clock
    ([time.time()]) and a token library (pyjwt).  The embedding keeps the
    three collaborators explicit:

    - the persisted collections are lists of documents, in insertion order,
      because [find_one], [update_one] and [delete_one] act on the first
      document that matches the filter;
    - every call to the store and every reading of the clock goes through a
      small state-and-exception monad; an environment decides, call by call,
      whether the store raises [PyMongoError], what other clients did to the
      collections since the previous call, and what the clock reads;
    - the token library and the error catalogue ([be/model/error.py], not
      part of the sources at hand) are interfaces with stated laws, each with
      an executable instance. *)

From Stdlib Require Import ZArith List String Ascii Bool Lia DecimalString.
Import ListNotations.

Open Scope string_scope.
Open Scope Z_scope.

(** ** Python values used by the services *)

(** Values found in a decoded token payload (a JSON object). *)
Inductive json : Type :=
| JNull
| JBool (b : bool)
| JNum (n : Z)
| JStr (s : string).

(** A payload is a Python [dict] with string keys, kept in insertion order. *)
Definition payload : Type := list (string * json).

(** [d.get(k)]: the value bound to [k], if any. *)
Fixpoint dict_get (k : string) (d : payload) : option json :=
  match d with
  | [] => None
  | (k', v) :: d' => if (k' =? k)%string then Some v else dict_get k d'
  end.

(** The exceptions that can travel through the services. *)
Inductive exn : Type :=
| PyMongoError (msg : string)
| InvalidSignatureError (msg : string)
| DecodeError (msg : string)
| TypeError (msg : string)
| ValueError (msg : string)
| InvalidKeyError (msg : string)
| OverflowError (msg : string).

(** [isinstance(e, pymongo.errors.PyMongoError)] *)
Definition is_PyMongoError (e : exn) : option string :=
  match e with PyMongoError msg => Some msg | _ => None end.

(** [isinstance(e, jwt.exceptions.InvalidSignatureError)].  In pyjwt
    [InvalidSignatureError] derives from [DecodeError], not the other way
    round: a plain [DecodeError] is not an [InvalidSignatureError]. *)
Definition is_InvalidSignatureError (e : exn) : option string :=
  match e with InvalidSignatureError msg => Some msg | _ => None end.

(** [str(e)] *)
Definition str_exn (e : exn) : string :=
  match e with
  | PyMongoError msg | InvalidSignatureError msg
  | DecodeError msg | TypeError msg | ValueError msg
  | InvalidKeyError msg | OverflowError msg => msg
  end.

Inductive outcome (A : Type) : Type :=
| Ret (a : A)
| Raise (e : exn).
Arguments Ret {A} a.
Arguments Raise {A} e.

(** What an operation hands back: the services return Python tuples of two
    or of three components. *)
Inductive reply : Type :=
| Pair (code : Z) (message : string)
| Triple (code : Z) (message : string) (token : string).

Definition code_of (r : reply) : Z :=
  match r with Pair c _ | Triple c _ _ => c end.

Definition tuple (cm : Z * string) : reply := Pair (fst cm) (snd cm).

(** Clock readings are whole numbers of seconds, held in a Python [float];
    [str(time.time())] is the text of that float, ["1700000000.0"] for the
    reading 1700000000 (readings are below 10^16 in absolute value, where
    the text switches to the exponent form). *)
Definition str_time (t : Z) : string :=
  NilZero.string_of_int (Z.to_int t) ++ ".0".

(** [now - ts] for a reading [now] and a payload value [ts] that is not
    [None]: numbers subtract, a [bool] is an [int], a string raises. *)
Definition py_sub (now : Z) (ts : json) : outcome Z :=
  match ts with
  | JNum n => Ret (now - n)
  | JBool b => Ret (now - Z.b2z b)
  | JStr _ => Raise (TypeError "unsupported operand type(s) for -: 'float' and 'str'")
  | JNull => Raise (TypeError "unsupported operand type(s) for -: 'float' and 'NoneType'")
  end.

(** ** Collections *)

Section Collection.
Context {D : Type}.

(** [find_one(filter)]: the first matching document. *)
Definition find_one (flt : D -> bool) (c : list D) : option D := find flt c.

(** [insert_one(doc)] *)
Definition insert_one (d : D) (c : list D) : list D := c ++ [d].

(** [update_one(filter, update)]: applies [upd] to the first matching
    document; the first component is [matched_count]. *)
Fixpoint update_one (flt : D -> bool) (upd : D -> D) (c : list D) : Z * list D :=
  match c with
  | [] => (0, [])
  | d :: c' =>
      if flt d then (1, upd d :: c')
      else let (n, c'') := update_one flt upd c' in (n, d :: c'')
  end.

(** [delete_one(filter)]: removes the first matching document; the first
    component is [deleted_count]. *)
Fixpoint delete_one (flt : D -> bool) (c : list D) : Z * list D :=
  match c with
  | [] => (0, [])
  | d :: c' =>
      if flt d then (1, c')
      else let (n, c'') := delete_one flt c' in (n, d :: c'')
  end.
End Collection.

(** ** Documents *)

(** [user] collection.  [password] and [token] are read with [dict.get], so
    a document may lack them. *)
Record UserDoc : Type := {
  u_user_id : string;
  u_password : option string;
  u_balance : Z;
  u_token : option string;
  u_terminal : option string
}.

(** [user.get('token', '')] *)
Definition get_token (d : UserDoc) : string :=
  match u_token d with Some t => t | None => "" end.

(** [user_store] collection: which user opened which shop. *)
Record UserStoreDoc : Type := {
  us_store_id : string;
  us_user_id : string
}.

(** [store] collection: one document per listed book. *)
Record BookDoc : Type := {
  b_store_id : string;
  b_book_id : string;
  b_book_info : string;
  b_stock_level : Z
}.

(** [order_history] collection.  Buyer and shop are written by the purchase
    flow; the services here read [order_id] and [status] only.  Every order
    carries a status, as the purchase flow writes it ([ship_order] reads it
    by subscript). *)
Record OrderDoc : Type := {
  o_order_id : string;
  o_user_id : string;
  o_store_id : string;
  o_status : string
}.

Record DB : Type := {
  user : list UserDoc;
  user_store : list UserStoreDoc;
  store : list BookDoc;
  order_history : list OrderDoc
}.

Definition with_user (c : list UserDoc) (db : DB) : DB :=
  {| user := c; user_store := user_store db;
     store := store db; order_history := order_history db |}.
Definition with_user_store (c : list UserStoreDoc) (db : DB) : DB :=
  {| user := user db; user_store := c;
     store := store db; order_history := order_history db |}.
Definition with_store (c : list BookDoc) (db : DB) : DB :=
  {| user := user db; user_store := user_store db;
     store := c; order_history := order_history db |}.
Definition with_order_history (c : list OrderDoc) (db : DB) : DB :=
  {| user := user db; user_store := user_store db;
     store := store db; order_history := c |}.

(** Filters. *)
Definition by_user_id (uid : string) (d : UserDoc) : bool :=
  (u_user_id d =? uid)%string.
Definition by_store_id (sid : string) (d : UserStoreDoc) : bool :=
  (us_store_id d =? sid)%string.
Definition by_store_book (sid bid : string) (d : BookDoc) : bool :=
  (b_store_id d =? sid)%string && (b_book_id d =? bid)%string.
Definition by_order_id (oid : string) (d : OrderDoc) : bool :=
  (o_order_id d =? oid)%string.

(** Updates ([$set], [$inc]). *)
Definition set_token_terminal (tok term : string) (d : UserDoc) : UserDoc :=
  {| u_user_id := u_user_id d; u_password := u_password d;
     u_balance := u_balance d; u_token := Some tok; u_terminal := Some term |}.
Definition set_password_token_terminal (pw tok term : string) (d : UserDoc) : UserDoc :=
  {| u_user_id := u_user_id d; u_password := Some pw;
     u_balance := u_balance d; u_token := Some tok; u_terminal := Some term |}.
Definition inc_stock_level (delta : Z) (d : BookDoc) : BookDoc :=
  {| b_store_id := b_store_id d; b_book_id := b_book_id d;
     b_book_info := b_book_info d; b_stock_level := b_stock_level d + delta |}.
Definition set_status (s : string) (d : OrderDoc) : OrderDoc :=
  {| o_order_id := o_order_id d; o_user_id := o_user_id d;
     o_store_id := o_store_id d; o_status := s |}.

(** ** The monad of service code *)

(** The surroundings of a run.  [time k] is the [k]-th reading of the clock;
    [fault k] tells whether the [k]-th call to the store raises
    [PyMongoError] (with which text); [intrude k] is what other clients did
    to the collections between call [k-1] and call [k]. *)
Record Env : Type := {
  time : nat -> Z;
  fault : nat -> option string;
  intrude : nat -> DB -> DB
}.

Record World : Type := {
  conn : DB;
  ticks : nat;
  calls : nat
}.

Definition M (A : Type) : Type := Env -> World -> outcome A * World.

Definition ret {A} (a : A) : M A := fun _ w => (Ret a, w).

Definition raise {A} (e : exn) : M A := fun _ w => (Raise e, w).

Definition bind {A B} (m : M A) (k : A -> M B) : M B :=
  fun env w =>
    match m env w with
    | (Ret a, w') => k a env w'
    | (Raise e, w') => (Raise e, w')
    end.

Declare Scope py_scope.
Delimit Scope py_scope with py.
Notation "x <- m ;; k" := (bind m (fun x => k))
  (at level 61, m at next level, right associativity) : py_scope.
Open Scope py_scope.

Definition lift {A} (o : outcome A) : M A := fun _ w => (o, w).

(** [try: body  except <class> as e: handler]: [cls] selects the exceptions
    of the class and extracts what the handler uses of them. *)
Definition try_except {A X} (body : M A) (cls : exn -> option X)
    (handler : X -> M A) : M A :=
  fun env w =>
    match body env w with
    | (Ret a, w') => (Ret a, w')
    | (Raise e, w') =>
        match cls e with
        | Some x => handler x env w'
        | None => (Raise e, w')
        end
    end.

(** [except Exception] and [except BaseException] catch every exception of
    the model. *)
Definition is_Exception (e : exn) : option string := Some (str_exn e).

(** [time.time()] *)
Definition time_time : M Z := fun env w =>
  (Ret (time env (ticks w)),
   {| conn := conn w; ticks := S (ticks w); calls := calls w |}).

(** One call to the store.  A call that raises leaves the collections as it
    found them. *)
Definition store_call {A} (f : DB -> A * DB) : M A := fun env w =>
  let db := intrude env (calls w) (conn w) in
  match fault env (calls w) with
  | Some msg =>
      (Raise (PyMongoError msg),
       {| conn := db; ticks := ticks w; calls := S (calls w) |})
  | None =>
      (Ret (fst (f db)),
       {| conn := snd (f db); ticks := ticks w; calls := S (calls w) |})
  end.

(** The calls the services make. *)
Definition user_find_one (uid : string) : M (option UserDoc) :=
  store_call (fun db => (find_one (by_user_id uid) (user db), db)).
Definition user_insert_one (d : UserDoc) : M unit :=
  store_call (fun db => (tt, with_user (insert_one d (user db)) db)).
Definition user_update_one (uid : string) (upd : UserDoc -> UserDoc) : M Z :=
  store_call (fun db =>
    let r := update_one (by_user_id uid) upd (user db) in
    (fst r, with_user (snd r) db)).
Definition user_delete_one (uid : string) : M Z :=
  store_call (fun db =>
    let r := delete_one (by_user_id uid) (user db) in
    (fst r, with_user (snd r) db)).
Definition user_store_find_one (sid : string) : M (option UserStoreDoc) :=
  store_call (fun db => (find_one (by_store_id sid) (user_store db), db)).
Definition user_store_insert_one (d : UserStoreDoc) : M unit :=
  store_call (fun db => (tt, with_user_store (insert_one d (user_store db)) db)).
Definition store_find_one (sid bid : string) : M (option BookDoc) :=
  store_call (fun db => (find_one (by_store_book sid bid) (store db), db)).

(** The store holds integers of 8 bytes.  The driver refuses to encode a
    larger one, before anything is sent. *)
Definition int64 (n : Z) : bool :=
  (-9223372036854775808 <=? n) && (n <=? 9223372036854775807).

Definition bson_int (n : Z) : M unit :=
  if int64 n then ret tt
  else raise (OverflowError "MongoDB can only handle up to 8-byte ints").

Definition store_insert_one (d : BookDoc) : M unit :=
  _ <- bson_int (b_stock_level d) ;;
  store_call (fun db => (tt, with_store (insert_one d (store db)) db)).

(** [update_one(filter, {'$inc': {'stock_level': delta}})].  The server
    refuses an increment whose result does not fit 8 bytes, with a write
    error, and leaves the document as it is.  The text of the error goes
    on with the current value and the document; it is cut here after its
    fixed part. *)
Definition inc_refused : string :=
  "Failed to apply $inc operations to current value".

Definition store_update_one (sid bid : string) (delta : Z) : M Z :=
  _ <- bson_int delta ;;
  r <- store_call (fun db =>
         match find_one (by_store_book sid bid) (store db) with
         | Some d =>
             if int64 (b_stock_level d + delta)
             then (Ret 1,
                   with_store
                     (snd (update_one (by_store_book sid bid)
                             (inc_stock_level delta) (store db))) db)
             else (Raise (PyMongoError inc_refused), db)
         | None => (Ret 0, db)
         end) ;;
  lift r.
Definition order_history_find_one (oid : string) : M (option OrderDoc) :=
  store_call (fun db => (find_one (by_order_id oid) (order_history db), db)).
Definition order_history_update_one (oid : string) (upd : OrderDoc -> OrderDoc) : M Z :=
  store_call (fun db =>
    let r := update_one (by_order_id oid) upd (order_history db) in
    (fst r, with_order_history (snd r) db)).

(** ** Interfaces of the collaborators *)

(** The token library, as the services use it:
    [jwt.encode(payload, key=key, algorithm="HS256")] and
    [jwt.decode(token, key=key, algorithms="HS256")].  The library refuses
    some texts as HMAC secret (the empty text, a text that looks like a PEM
    or SSH key) with [InvalidKeyError]; [jwt_lib_key_error key] is the text
    of that error, [None] for a key it accepts.  [jwt_lib_encode] is the
    token the library returns for a key it accepts. *)
Class JwtLib : Type := {
  jwt_lib_key_error : string -> option string;
  jwt_lib_encode : payload -> string -> string;
  jwt_lib_decode : string -> string -> outcome payload
}.

(** The payload signed by [jwt_encode]. *)
Definition claims (user_id terminal : string) (timestamp : Z) : payload :=
  [("user_id", JStr user_id); ("terminal", JStr terminal);
   ("timestamp", JNum timestamp)].

(** Number of ['.'] separators of a compact token. *)
Fixpoint count_dots (s : string) : nat :=
  match s with
  | EmptyString => O
  | String c r => if (c =? ".")%char then S (count_dots r) else count_dots r
  end.

(** What the services rely on from the library: a token decodes, under the
    accepted key that signed it, to the payload that was signed; a text
    with fewer than three dot-separated segments is rejected with
    [DecodeError] ("Not enough segments"), which is not a signature
    error. *)
Record JwtLaws (J : JwtLib) : Prop := {
  decode_encode : forall user_id terminal timestamp key,
    jwt_lib_key_error key = None ->
    jwt_lib_decode (jwt_lib_encode (claims user_id terminal timestamp) key) key
    = Ret (claims user_id terminal timestamp);
  decode_segments : forall tok key,
    (count_dots tok < 2)%nat ->
    exists msg, jwt_lib_decode tok key = Raise (DecodeError msg)
}.

(** Modelled from the spec: the error catalogue [be/model/error.py] is not
    among the sources.  The spec describes it as a pure mapping from semantic
    failure kinds to (code, message) pairs. *)
Class ErrorCatalog : Type := {
  error_authorization_fail : Z * string;
  error_non_exist_user_id : string -> Z * string;
  error_exist_user_id : string -> Z * string;
  error_non_exist_store_id : string -> Z * string;
  error_exist_store_id : string -> Z * string;
  error_non_exist_book_id : string -> Z * string;
  error_exist_book_id : string -> Z * string
}.

(** Modelled from the spec: success, semantic rejection and infrastructure
    failure are told apart by the code, so no catalogue entry carries the
    success code. *)
Record CatalogLaws (E : ErrorCatalog) : Prop := {
  authorization_fail_code : fst error_authorization_fail <> 200;
  non_exist_user_id_code : forall id, fst (error_non_exist_user_id id) <> 200;
  exist_user_id_code : forall id, fst (error_exist_user_id id) <> 200;
  non_exist_store_id_code : forall id, fst (error_non_exist_store_id id) <> 200;
  exist_store_id_code : forall id, fst (error_exist_store_id id) <> 200;
  non_exist_book_id_code : forall id, fst (error_non_exist_book_id id) <> 200;
  exist_book_id_code : forall id, fst (error_exist_book_id id) <> 200
}.

(** ** The services *)

Section Services.
Context {J : JwtLib} {E : ErrorCatalog}.

(** *** [be/model/user.py] *)

Definition jwt_encode (user_id terminal : string) : M string :=
  timestamp <- time_time ;;
  match jwt_lib_key_error user_id with
  | Some msg => raise (InvalidKeyError msg)
  | None => ret (jwt_lib_encode (claims user_id terminal timestamp) user_id)
  end.

Definition jwt_decode (encoded_token user_id : string) : M payload :=
  lift (jwt_lib_decode encoded_token user_id).

Definition token_lifetime : Z := 3600.

Definition __check_token (user_id db_token token : string) : M bool :=
  try_except
    (if negb (db_token =? token)%string then ret false
     else
       jwt_text <- jwt_decode token user_id ;;
       match dict_get "timestamp" jwt_text with
       | None | Some JNull => ret false
       | Some ts =>
           now <- time_time ;;
           age <- lift (py_sub now ts) ;;
           if age <=? token_lifetime then ret true else ret false
       end)
    is_InvalidSignatureError
    (fun _ => ret false).

Definition register (user_id password : string) : M reply :=
  try_except
    (existing_user <- user_find_one user_id ;;
     match existing_user with
     | Some _ => ret (tuple (error_exist_user_id user_id))
     | None =>
         t <- time_time ;;
         let terminal := "terminal_" ++ str_time t in
         token <- jwt_encode user_id terminal ;;
         _ <- user_insert_one
                {| u_user_id := user_id; u_password := Some password;
                   u_balance := 0; u_token := Some token;
                   u_terminal := Some terminal |} ;;
         ret (Pair 200 "ok")
     end)
    is_PyMongoError
    (fun msg => ret (Pair 528 msg)).

Definition check_token (user_id token : string) : M reply :=
  user <- user_find_one user_id ;;
  match user with
  | None => ret (tuple error_authorization_fail)
  | Some doc =>
      let db_token := get_token doc in
      is_token_valid <- __check_token user_id db_token token ;;
      if negb is_token_valid then ret (tuple error_authorization_fail)
      else ret (Pair 200 "ok")
  end.

Definition check_password (user_id password : string) : M reply :=
  try_except
    (user <- user_find_one user_id ;;
     match user with
     | None => ret (tuple error_authorization_fail)
     | Some doc =>
         match u_password doc with
         | Some pw =>
             if negb (pw =? password)%string
             then ret (tuple error_authorization_fail)
             else ret (Pair 200 "ok")
         | None => ret (tuple error_authorization_fail)
         end
     end)
    is_PyMongoError
    (fun msg => ret (Pair 528 msg)).

Definition login (user_id password terminal : string) : M reply :=
  try_except
    (try_except
       (r <- check_password user_id password ;;
        match r with
        | Triple _ _ _ => raise (ValueError "too many values to unpack")
        | Pair code message =>
            if negb (code =? 200) then ret (Triple code message "")
            else
              token <- jwt_encode user_id terminal ;;
              matched_count <- user_update_one user_id
                                 (set_token_terminal token terminal) ;;
              if matched_count =? 0 then ret (tuple error_authorization_fail)
              else ret (Triple 200 "ok" token)
        end)
       is_PyMongoError
       (fun msg => ret (Triple 528 msg "")))
    is_Exception
    (fun msg => ret (Triple 530 msg "")).

Definition logout (user_id token : string) : M reply :=
  try_except
    (try_except
       (r <- check_token user_id token ;;
        match r with
        | Triple _ _ _ => raise (ValueError "too many values to unpack")
        | Pair code message =>
            if negb (code =? 200) then ret (Pair code message)
            else
              t <- time_time ;;
              let terminal := "terminal_" ++ str_time t in
              dummy_token <- jwt_encode user_id terminal ;;
              matched_count <- user_update_one user_id
                                 (set_token_terminal dummy_token terminal) ;;
              if matched_count =? 0 then ret (tuple error_authorization_fail)
              else ret (Pair 200 "ok")
        end)
       is_PyMongoError
       (fun msg => ret (Pair 528 msg)))
    is_Exception
    (fun msg => ret (Pair 530 msg)).

Definition unregister (user_id password : string) : M reply :=
  try_except
    (try_except
       (r <- check_password user_id password ;;
        match r with
        | Triple _ _ _ => raise (ValueError "too many values to unpack")
        | Pair code message =>
            if negb (code =? 200) then ret (Pair code message)
            else
              deleted_count <- user_delete_one user_id ;;
              if negb (deleted_count =? 1)
              then ret (tuple error_authorization_fail)
              else ret (Pair 200 "ok")
        end)
       is_PyMongoError
       (fun msg => ret (Pair 528 msg)))
    is_Exception
    (fun msg => ret (Pair 530 msg)).

Definition change_password (user_id old_password new_password : string)
  : M reply :=
  try_except
    (try_except
       (r <- check_password user_id old_password ;;
        match r with
        | Triple _ _ _ => raise (ValueError "too many values to unpack")
        | Pair code message =>
            if negb (code =? 200) then ret (Pair code message)
            else
              t <- time_time ;;
              let terminal := "terminal_" ++ str_time t in
              token <- jwt_encode user_id terminal ;;
              _ <- user_update_one user_id
                     (set_password_token_terminal new_password token terminal) ;;
              ret (Pair 200 "ok")
        end)
       is_PyMongoError
       (fun msg => ret (Pair 528 msg)))
    is_Exception
    (fun msg => ret (Pair 530 msg)).

(** *** [be/model/db_conn.py] *)

(** Modelled from the spec: the existence checks of [db_conn.DBConn] are
    not among the sources.  Each is one read of the collection that holds
    the entity: users in [user], shops in [user_store] (where
    [create_store] writes them), listings in [store]. *)
Definition user_id_exist (user_id : string) : M bool :=
  r <- user_find_one user_id ;;
  ret (match r with Some _ => true | None => false end).

Definition store_id_exist (store_id : string) : M bool :=
  r <- user_store_find_one store_id ;;
  ret (match r with Some _ => true | None => false end).

Definition book_id_exist (store_id book_id : string) : M bool :=
  r <- store_find_one store_id book_id ;;
  ret (match r with Some _ => true | None => false end).

(** *** [be/model/seller.py] *)

Definition add_book (user_id store_id book_id book_json_str : string)
    (stock_level : Z) : M reply :=
  try_except
    (try_except
       (ue <- user_id_exist user_id ;;
        if negb ue then ret (tuple (error_non_exist_user_id user_id)) else
        se <- store_id_exist store_id ;;
        if negb se then ret (tuple (error_non_exist_store_id store_id)) else
        be <- book_id_exist store_id book_id ;;
        if be then ret (tuple (error_exist_book_id book_id)) else
        _ <- store_insert_one
               {| b_store_id := store_id; b_book_id := book_id;
                  b_book_info := book_json_str;
                  b_stock_level := stock_level |} ;;
        ret (Pair 200 "ok"))
       is_PyMongoError
       (fun msg => ret (Pair 528 msg)))
    is_Exception
    (fun msg => ret (Pair 530 msg)).

Definition add_stock_level (user_id store_id book_id : string)
    (add_stock_level : Z) : M reply :=
  try_except
    (try_except
       (ue <- user_id_exist user_id ;;
        if negb ue then ret (tuple (error_non_exist_user_id user_id)) else
        se <- store_id_exist store_id ;;
        if negb se then ret (tuple (error_non_exist_store_id store_id)) else
        be <- book_id_exist store_id book_id ;;
        if negb be then ret (tuple (error_non_exist_book_id book_id)) else
        _ <- store_update_one store_id book_id add_stock_level ;;
        ret (Pair 200 "ok"))
       is_PyMongoError
       (fun msg => ret (Pair 528 msg)))
    is_Exception
    (fun msg => ret (Pair 530 msg)).

Definition create_store (user_id store_id : string) : M reply :=
  try_except
    (try_except
       (ue <- user_id_exist user_id ;;
        if negb ue then ret (tuple (error_non_exist_user_id user_id)) else
        se <- store_id_exist store_id ;;
        if se then ret (tuple (error_exist_store_id store_id)) else
        _ <- user_store_insert_one
               {| us_store_id := store_id; us_user_id := user_id |} ;;
        ret (Pair 200 "ok"))
       is_PyMongoError
       (fun msg => ret (Pair 528 msg)))
    is_Exception
    (fun msg => ret (Pair 530 msg)).

Definition ship_order (user_id store_id order_id : string) : M reply :=
  try_except
    (ue <- user_id_exist user_id ;;
     if negb ue then ret (tuple (error_non_exist_user_id user_id)) else
     se <- store_id_exist store_id ;;
     if negb se then ret (tuple (error_exist_store_id store_id)) else
     order <- order_history_find_one order_id ;;
     match order with
     | None => ret (Pair 400 "Invalid order ID")
     | Some doc =>
         if negb (o_status doc =? "paid")%string
         then ret (Pair 400 "Order is not paid")
         else
           _ <- order_history_update_one order_id (set_status "shipped") ;;
           ret (Pair 200 "ok")
     end)
    is_PyMongoError
    (fun msg => ret (Pair 528 msg)).

(** *** Calls as data *)

Inductive command : Type :=
| Register (user_id password : string)
| CheckToken (user_id token : string)
| CheckPassword (user_id password : string)
| Login (user_id password terminal : string)
| Logout (user_id token : string)
| Unregister (user_id password : string)
| ChangePassword (user_id old_password new_password : string)
| AddBook (user_id store_id book_id book_json_str : string) (stock_level : Z)
| AddStockLevel (user_id store_id book_id : string) (delta : Z)
| CreateStore (user_id store_id : string)
| ShipOrder (user_id store_id order_id : string).

Definition exec (c : command) : M reply :=
  match c with
  | Register u p => register u p
  | CheckToken u t => check_token u t
  | CheckPassword u p => check_password u p
  | Login u p t => login u p t
  | Logout u t => logout u t
  | Unregister u p => unregister u p
  | ChangePassword u o n => change_password u o n
  | AddBook u s b i n => add_book u s b i n
  | AddStockLevel u s b d => add_stock_level u s b d
  | CreateStore u s => create_store u s
  | ShipOrder u s o => ship_order u s o
  end.

(** A client issuing calls one after the other, whatever they return. *)
Fixpoint run (cs : list command) (env : Env) (w : World) : World :=
  match cs with
  | [] => w
  | c :: cs' => run cs' env (snd (exec c env w))
  end.
End Services.

(** ** Executable instances of the interfaces *)

(** A small token library with the shape of a compact JWT,
    [header.payload.signature]: the payload is written out in a
    self-delimiting text form and the signature is a keyed checksum.  It
    stands in for HS256 when the services are run on concrete inputs, and it
    shows that [JwtLaws] can be met. *)
Module PlainJwt.

Fixpoint enc_pos (p : positive) : string :=
  match p with
  | xH => "H"
  | xO q => String "O" (enc_pos q)
  | xI q => String "I" (enc_pos q)
  end.

Fixpoint dec_pos (s : string) : option (positive * string) :=
  match s with
  | EmptyString => None
  | String c r =>
      if (c =? "H")%char then Some (xH, r)
      else if (c =? "O")%char then
        match dec_pos r with Some (p, r') => Some (xO p, r') | None => None end
      else if (c =? "I")%char then
        match dec_pos r with Some (p, r') => Some (xI p, r') | None => None end
      else None
  end.

Definition enc_nat (n : nat) : string := enc_pos (Pos.of_succ_nat n).

Definition dec_nat (s : string) : option (nat * string) :=
  match dec_pos s with
  | Some (p, r) => Some (pred (Pos.to_nat p), r)
  | None => None
  end.

Definition enc_Z (z : Z) : string :=
  match z with
  | Z0 => "Z"
  | Zpos p => String "P" (enc_pos p)
  | Zneg p => String "N" (enc_pos p)
  end.

Definition dec_Z (s : string) : option (Z * string) :=
  match s with
  | EmptyString => None
  | String c r =>
      if (c =? "Z")%char then Some (Z0, r)
      else if (c =? "P")%char then
        match dec_pos r with Some (p, r') => Some (Zpos p, r') | None => None end
      else if (c =? "N")%char then
        match dec_pos r with Some (p, r') => Some (Zneg p, r') | None => None end
      else None
  end.

(** The first [n] characters of [s] and what follows them. *)
Fixpoint split_at (n : nat) (s : string) : option (string * string) :=
  match n with
  | O => Some (EmptyString, s)
  | S n' =>
      match s with
      | EmptyString => None
      | String c r =>
          match split_at n' r with
          | Some (a, b) => Some (String c a, b)
          | None => None
          end
      end
  end.

Definition enc_str (s : string) : string := enc_nat (String.length s) ++ s.

Definition dec_str (s : string) : option (string * string) :=
  match dec_nat s with
  | Some (n, r) => split_at n r
  | None => None
  end.

Definition enc_json (v : json) : string :=
  match v with
  | JNull => "n"
  | JBool true => "t"
  | JBool false => "f"
  | JNum z => String "#" (enc_Z z)
  | JStr s => String "s" (enc_str s)
  end.

Definition dec_json (s : string) : option (json * string) :=
  match s with
  | EmptyString => None
  | String c r =>
      if (c =? "n")%char then Some (JNull, r)
      else if (c =? "t")%char then Some (JBool true, r)
      else if (c =? "f")%char then Some (JBool false, r)
      else if (c =? "#")%char then
        match dec_Z r with Some (z, r') => Some (JNum z, r') | None => None end
      else if (c =? "s")%char then
        match dec_str r with Some (x, r') => Some (JStr x, r') | None => None end
      else None
  end.

Fixpoint enc_entries (p : payload) : string :=
  match p with
  | [] => EmptyString
  | (k, v) :: p' => enc_str k ++ enc_json v ++ enc_entries p'
  end.

Fixpoint dec_entries (n : nat) (s : string) : option (payload * string) :=
  match n with
  | O => Some ([], s)
  | S n' =>
      match dec_str s with
      | None => None
      | Some (k, r) =>
          match dec_json r with
          | None => None
          | Some (v, r') =>
              match dec_entries n' r' with
              | Some (p, r'') => Some ((k, v) :: p, r'')
              | None => None
              end
          end
      end
  end.

Definition enc_payload (p : payload) : string :=
  enc_nat (List.length p) ++ enc_entries p.

Definition dec_payload (s : string) : option payload :=
  match dec_nat s with
  | None => None
  | Some (n, r) =>
      match dec_entries n r with
      | Some (p, EmptyString) => Some p
      | _ => None
      end
  end.

(** Keyed checksum of the payload segment. *)
Fixpoint checksum (acc : N) (s : string) : N :=
  match s with
  | EmptyString => acc
  | String c r => checksum ((31 * acc + N_of_ascii c) mod 65521)%N r
  end.

Definition sign (key body : string) : string :=
  enc_pos (N.succ_pos (checksum (checksum 7 key) body)).

(** [s.split(".", 1)] when [s] has a dot. *)
Fixpoint split_dot (s : string) : option (string * string) :=
  match s with
  | EmptyString => None
  | String c r =>
      if (c =? ".")%char then Some (EmptyString, r)
      else match split_dot r with
           | Some (a, b) => Some (String c a, b)
           | None => None
           end
  end.

(** [s.rsplit(".", 1)] when [s] has a dot. *)
Fixpoint rsplit_dot (s : string) : option (string * string) :=
  match s with
  | EmptyString => None
  | String c r =>
      match rsplit_dot r with
      | Some (a, b) => Some (String c a, b)
      | None => if (c =? ".")%char then Some (EmptyString, r) else None
      end
  end.

Definition encode (p : payload) (key : string) : string :=
  let body := enc_payload p in
  "J." ++ body ++ "." ++ sign key body.

(** Keys refused as secret: the empty text and a text that opens like a
    PEM block or an SSH public key.  The wording for the empty text is
    this module's own. *)
Definition key_error (key : string) : option string :=
  if (key =? "")%string then Some "HMAC key must not be empty"
  else if String.prefix "-----BEGIN " key || String.prefix "ssh-" key
  then Some "The specified key is an asymmetric key or x509 certificate and should not be used as an HMAC secret."
  else None.

Definition decode (tok key : string) : outcome payload :=
  match rsplit_dot tok with
  | None => Raise (DecodeError "Not enough segments")
  | Some (signing_input, crypto_segment) =>
      match split_dot signing_input with
      | None => Raise (DecodeError "Not enough segments")
      | Some (header_segment, payload_segment) =>
          if negb (header_segment =? "J")%string
          then Raise (DecodeError "Invalid header")
          else match key_error key with
          | Some msg => Raise (InvalidKeyError msg)
          | None =>
          if negb (crypto_segment =? sign key payload_segment)%string
          then Raise (InvalidSignatureError "Signature verification failed")
          else match dec_payload payload_segment with
               | Some p => Ret p
               | None => Raise (DecodeError "Invalid payload")
               end
          end
      end
  end.

Definition lib : JwtLib :=
  {| jwt_lib_key_error := key_error;
     jwt_lib_encode := encode; jwt_lib_decode := decode |}.

End PlainJwt.

(** One catalogue that meets [CatalogLaws]. *)
Definition catalog : ErrorCatalog := {|
  error_authorization_fail := (401, "authorization fail.");
  error_non_exist_user_id := fun id => (511, "non exist user id " ++ id);
  error_exist_user_id := fun id => (512, "exist user id " ++ id);
  error_non_exist_store_id := fun id => (513, "non exist store id " ++ id);
  error_exist_store_id := fun id => (514, "exist store id " ++ id);
  error_non_exist_book_id := fun id => (515, "non exist book id " ++ id);
  error_exist_book_id := fun id => (516, "exist book id " ++ id)
|}.

(** ** Vocabulary of the statements *)

(** No other client touches the collections during the run. *)
Definition calm (env : Env) : Prop := forall k db, intrude env k db = db.

(** The store never raises during the run. *)
Definition reliable (env : Env) : Prop := forall k, fault env k = None.

(** A run left alone: the store answers every call, nobody else writes, and
    the clock reads [clock k] at its [k]-th reading. *)
Definition steady (clock : nat -> Z) : Env :=
  {| time := clock; fault := fun _ => None; intrude := fun _ db => db |}.

(** The store raises [PyMongoError msg] at its first call only. *)
Definition failing_once (msg : string) (clock : nat -> Z) : Env :=
  {| time := clock;
     fault := fun k => match k with O => Some msg | S _ => None end;
     intrude := fun _ db => db |}.

(** Another client deletes user [uid] just before call number [n]. *)
Definition deleting_before (n : nat) (uid : string) (clock : nat -> Z) : Env :=
  {| time := clock;
     fault := fun _ => None;
     intrude := fun k db =>
       if Nat.eqb k n
       then with_user (snd (delete_one (by_user_id uid) (user db))) db
       else db |}.

Definition start (db : DB) : World := {| conn := db; ticks := 0; calls := 0 |}.

(** The world after one more reading of the clock. *)
Definition ticked (w : World) : World :=
  {| conn := conn w; ticks := S (ticks w); calls := calls w |}.

Definition has_user (uid : string) (db : DB) : bool :=
  existsb (by_user_id uid) (user db).
Definition has_store (sid : string) (db : DB) : bool :=
  existsb (by_store_id sid) (user_store db).
Definition has_book (sid bid : string) (db : DB) : bool :=
  existsb (by_store_book sid bid) (store db).

(** Status of the order that [find_one] returns for [oid], if any. *)
Definition order_status (oid : string) (db : DB) : option string :=
  option_map o_status (find_one (by_order_id oid) (order_history db)).

(** Token that [check_token] compares against for [uid], if the user exists. *)
Definition stored_token (uid : string) (db : DB) : option string :=
  option_map get_token (find_one (by_user_id uid) (user db)).

(** Every listing has a stock level of at least zero. *)
Definition stock_ok (db : DB) : Prop :=
  Forall (fun d => 0 <= b_stock_level d) (store db).

Definition stock_okb (db : DB) : bool :=
  forallb (fun d => 0 <=? b_stock_level d) (store db).

Section Statements.
Context {J : JwtLib} {E : ErrorCatalog}.

(** Quantities handed to [add_book] and [add_stock_level] are not
    negative. *)
Definition nonneg_args (c : command) : Prop :=
  match c with
  | AddBook _ _ _ _ n => 0 <= n
  | AddStockLevel _ _ _ d => 0 <= d
  | _ => True
  end.

(** The calls that write a new token for [uid]. *)
Definition rotates (uid : string) (c : command) : Prop :=
  match c with
  | Login u _ _ | Logout u _ | ChangePassword u _ _ => u = uid
  | _ => False
  end.

(** Terminal and clock reading that a call of [rotates] signs into the
    token it stores, when started in [w]: [login] signs the terminal of the
    caller at the first reading; [change_password] names the terminal after
    the first reading and stamps the second; [logout] spends the first
    reading on the check of the presented token, names the terminal after
    the second and stamps the third. *)
Definition replacement (c : command) (env : Env) (w : World)
    : option (string * Z) :=
  match c with
  | Login _ _ terminal => Some (terminal, time env (ticks w))
  | ChangePassword _ _ _ =>
      Some (("terminal_" ++ str_time (time env (ticks w)))%string,
            time env (S (ticks w)))
  | Logout _ _ =>
      Some (("terminal_" ++ str_time (time env (S (ticks w))))%string,
            time env (S (S (ticks w))))
  | _ => None
  end.

(** The replies that report a failed precondition: a missing or duplicate
    user, shop or book, an unknown order, an order that is not paid. *)
Inductive precondition_failure : reply -> Prop :=
| pf_non_exist_user_id id : precondition_failure (tuple (error_non_exist_user_id id))
| pf_exist_user_id id : precondition_failure (tuple (error_exist_user_id id))
| pf_non_exist_store_id id : precondition_failure (tuple (error_non_exist_store_id id))
| pf_exist_store_id id : precondition_failure (tuple (error_exist_store_id id))
| pf_non_exist_book_id id : precondition_failure (tuple (error_non_exist_book_id id))
| pf_exist_book_id id : precondition_failure (tuple (error_exist_book_id id))
| pf_invalid_order : precondition_failure (Pair 400 "Invalid order ID")
| pf_not_paid : precondition_failure (Pair 400 "Order is not paid").

End Statements.

(** ** Concrete runs *)

(** A clock that moves one second per reading, and one that has not moved
    over its first four readings. *)
Definition unix (k : nat) : Z := 1700000000 + Z.of_nat k.
Definition coarse (k : nat) : Z := 1700000000 + Z.of_nat (Nat.div k 4).

Definition empty_db : DB :=
  {| user := []; user_store := []; store := []; order_history := [] |}.

(** Two users, each with a shop, one listed book, and one paid order placed
    by [buyer] at [shop1]. *)
Definition market : DB :=
  with_order_history
    [ {| o_order_id := "o1"; o_user_id := "buyer";
         o_store_id := "shop1"; o_status := "paid" |} ]
    (conn (run (J := PlainJwt.lib) (E := catalog)
             [ Register "seller" "pw1"; Register "buyer" "pw2";
               CreateStore "seller" "shop1"; CreateStore "buyer" "shop2";
               AddBook "seller" "shop1" "b1" "{}" 10 ]
             (steady unix) (start empty_db))).

(** A user record written by other means than [register], under a user id
    that reads like an SSH public key, which the token library refuses as
    key. *)
Definition imported : DB :=
  with_user
    [ {| u_user_id := "ssh-rsa"; u_password := Some "p1"; u_balance := 0;
         u_token := None; u_terminal := None |} ]
    empty_db.

(** ** Further vocabulary *)

(** The world [dt] clock readings and [dc] store calls later, with
    collections [db]. *)
Definition later (w : World) (db : DB) (dt dc : nat) : World :=
  {| conn := db; ticks := dt + ticks w; calls := dc + calls w |}.

(** The password check of [check_password] on the document [find_one]
    returns for [uid]. *)
Definition password_ok (uid pw : string) (db : DB) : bool :=
  match find_one (by_user_id uid) (user db) with
  | Some doc =>
      match u_password doc with
      | Some p => (p =? pw)%string
      | None => false
      end
  | None => false
  end.

(** Stock level of the listing [find_one] returns for a shop and a book. *)
Definition stock_of (sid bid : string) (db : DB) : option Z :=
  option_map b_stock_level (find_one (by_store_book sid bid) (store db)).

(** Owner recorded for a shop. *)
Definition owner_of (sid : string) (db : DB) : option string :=
  option_map us_user_id (find_one (by_store_id sid) (user_store db)).

(** What identifies an account and what it holds apart from the session. *)
Definition credentials (db : DB) : list (string * option string * Z) :=
  map (fun d => (u_user_id d, u_password d, u_balance d)) (user db).

Definition balances (db : DB) : list (string * Z) :=
  map (fun d => (u_user_id d, u_balance d)) (user db).

(** Each collection has at most one document per key. *)
Definition unique_keys (db : DB) : Prop :=
  NoDup (map u_user_id (user db)) /\
  NoDup (map us_store_id (user_store db)) /\
  NoDup (map (fun d => (b_store_id d, b_book_id d)) (store db)) /\
  NoDup (map o_order_id (order_history db)).

(** One order before and after: same identity, and the status either kept
    or moved from [paid] to [shipped]. *)
Definition order_step (before after : OrderDoc) : Prop :=
  o_order_id after = o_order_id before /\
  o_user_id after = o_user_id before /\
  o_store_id after = o_store_id before /\
  (o_status after = o_status before \/
   (o_status before = "paid" /\ o_status after = "shipped")).

Section MoreStatements.
Context {J : JwtLib} {E : ErrorCatalog}.

(** Calls that leave accounts as they are: all but registration,
    unregistration and password change. *)
Definition keeps_accounts (c : command) : Prop :=
  match c with
  | Register _ _ | Unregister _ _ | ChangePassword _ _ _ => False
  | _ => True
  end.

(** The calls whose body sits under a handler for every exception. *)
Definition guarded (c : command) : Prop :=
  match c with
  | Login _ _ _ | Logout _ _ | Unregister _ _ | ChangePassword _ _ _
  | AddBook _ _ _ _ _ | AddStockLevel _ _ _ _ | CreateStore _ _ => True
  | _ => False
  end.



(** The collection a call may write to. *)
Inductive collection : Type := Users | Shops | Listings | Orders | NoCollection.

Definition written_by (c : command) : collection :=
  match c with
  | Register _ _ | Login _ _ _ | Logout _ _ | Unregister _ _
  | ChangePassword _ _ _ => Users
  | CreateStore _ _ => Shops
  | AddBook _ _ _ _ _ | AddStockLevel _ _ _ _ => Listings
  | ShipOrder _ _ _ => Orders
  | CheckToken _ _ | CheckPassword _ _ => NoCollection
  end.

(** [db'] is [db] except, possibly, for collection [k]. *)
Definition same_except (k : collection) (db db' : DB) : Prop :=
  (k = Users \/ user db' = user db) /\
  (k = Shops \/ user_store db' = user_store db) /\
  (k = Listings \/ store db' = store db) /\
  (k = Orders \/ order_history db' = order_history db).
End MoreStatements.

(** ** The book catalogue *)

(** A column value of the SQLite snapshot, and so a field value of a
    catalogue document (floating-point columns are left out). *)
Inductive cell : Type :=
| CNull
| CInt (n : Z)
| CText (s : string)
| CBlob (b : string).

(** [books] collection: one document per row of the snapshot. *)
Record BookInfoDoc : Type := {
  bk_id : cell;
  bk_title : cell;
  bk_author : cell;
  bk_publisher : cell;
  bk_original_title : cell;
  bk_translator : cell;
  bk_pub_year : cell;
  bk_pages : cell;
  bk_price : cell;
  bk_currency_unit : cell;
  bk_binding : cell;
  bk_isbn : cell;
  bk_author_intro : cell;
  bk_book_intro : cell;
  bk_content : cell;
  bk_tags : cell;
  bk_picture : cell
}.

(** The regular-expression engine of the store, as [$regex] uses it: a
    pattern either compiles to an unanchored matcher or is rejected, in
    which case the query fails with an [OperationFailure], a
    [PyMongoError]. *)
Class MongoRegex : Type := {
  regex_compile : string -> option (string -> bool);
  regex_error : string -> string
}.

(** Truth value of a Python string. *)
Definition truthy (s : string) : bool := negb (s =? "")%string.

(** The filter document [search_book] builds. *)
Record Query : Type := {
  q_title : option string;
  q_content : option string;
  q_tags : option string;
  q_id : option (list string)
}.

Section Search.
Context {E : ErrorCatalog} {R : MongoRegex}.

(** [{field: {"$regex": pattern}}] holds of text values that the pattern
    matches. *)
Definition regex_criterion (pattern : option string)
    (field : BookInfoDoc -> cell) : outcome (BookInfoDoc -> bool) :=
  match pattern with
  | None => Ret (fun _ => true)
  | Some p =>
      match regex_compile p with
      | Some matches =>
          Ret (fun d => match field d with
                        | CText s => matches s
                        | _ => false
                        end)
      | None => Raise (PyMongoError (regex_error p))
      end
  end.

(** [{"id": {"$in": ids}}] *)
Definition in_criterion (ids : option (list string)) (d : BookInfoDoc) : bool :=
  match ids with
  | None => true
  | Some l =>
      match bk_id d with
      | CText s => existsb (String.eqb s) l
      | _ => false
      end
  end.

(** [list(books.find(query))] over the documents [books]. *)
Definition run_query (q : Query) (books : list BookInfoDoc)
  : outcome (list BookInfoDoc) :=
  match regex_criterion (q_title q) bk_title with
  | Raise e => Raise e
  | Ret by_title =>
      match regex_criterion (q_content q) bk_content with
      | Raise e => Raise e
      | Ret by_content =>
          match regex_criterion (q_tags q) bk_tags with
          | Raise e => Raise e
          | Ret by_tags =>
              Ret (filter (fun d => by_title d && by_content d && by_tags d
                                    && in_criterion (q_id q) d) books)
          end
      end
  end.

(** One read of the [books] collection, whose documents at the time of the
    call are [books]. *)
Definition books_find (books : list BookInfoDoc) (q : Query)
  : M (list BookInfoDoc) :=
  r <- store_call (fun db => (run_query q books, db)) ;;
  lift r.

(** The listings of a shop. *)
Definition listings_of (sid : string) (db : DB) : list BookDoc :=
  filter (fun d => (b_store_id d =? sid)%string) (store db).

(** [list(store.find({"store_id": store_id}))] *)
Definition store_find (sid : string) : M (list BookDoc) :=
  store_call (fun db => (listings_of sid db, db)).

Definition search_book (books : list BookInfoDoc)
    (title content tag store_id : string) : M reply :=
  r <- try_except
         (try_except
            (let query :=
               {| q_title := if truthy title then Some title else None;
                  q_content := if truthy content then Some content else None;
                  q_tags := if truthy tag then Some tag else None;
                  q_id := None |} in
             if truthy store_id then
               store_result <- store_find store_id ;;
               if (List.length store_result =? 0)%nat
               then ret (inl (tuple (error_non_exist_store_id store_id)))
               else
                 let book_ids := map b_book_id store_result in
                 results <- books_find books
                              {| q_title := q_title query;
                                 q_content := q_content query;
                                 q_tags := q_tags query;
                                 q_id := Some book_ids |} ;;
                 ret (inr results)
             else
               results <- books_find books query ;;
               ret (inr results))
            is_PyMongoError
            (fun msg => ret (inl (Pair 528 msg))))
         is_Exception
         (fun msg => ret (inl (Pair 530 msg))) ;;
  match r with
  | inl answer => ret answer
  | inr results =>
      match results with
      | [] => ret (Pair 529 "No matching books found.")
      | _ :: _ => ret (Pair 200 "ok")
      end
  end.
End Search.

(** *** [data/load.py] *)

(** [item[0]] ... [item[16]] on a row: a row of fewer than 17 columns raises
    [IndexError], columns beyond the 17th are ignored. *)
Definition doc_of_row (item : list cell) : option BookInfoDoc :=
  match item with
  | c0 :: c1 :: c2 :: c3 :: c4 :: c5 :: c6 :: c7 :: c8 :: c9 :: c10 :: c11
       :: c12 :: c13 :: c14 :: c15 :: c16 :: _ =>
      Some {| bk_id := c0; bk_title := c1; bk_author := c2;
              bk_publisher := c3; bk_original_title := c4;
              bk_translator := c5; bk_pub_year := c6; bk_pages := c7;
              bk_price := c8; bk_currency_unit := c9; bk_binding := c10;
              bk_isbn := c11; bk_author_intro := c12; bk_book_intro := c13;
              bk_content := c14; bk_tags := c15; bk_picture := c16 |}
  | _ => None
  end.

(** What can stop the loader. *)
Inductive load_exn : Type :=
| LoadPyMongoError (msg : string)
| OperationalError (msg : string)
| IndexError (msg : string).

(** The [books] collection as the loader sees it ([None]: the collection
    does not exist) and the number of requests sent to the store. *)
Record Shelf : Type := {
  books : option (list BookInfoDoc);
  requests : nat
}.

Definition L (A : Type) : Type := Env -> Shelf -> (load_exn + A) * Shelf.

Definition l_ret {A} (a : A) : L A := fun _ s => (inr a, s).

Definition l_raise {A} (e : load_exn) : L A := fun _ s => (inl e, s).

Definition l_bind {A B} (m : L A) (k : A -> L B) : L B :=
  fun env s =>
    match m env s with
    | (inr a, s') => k a env s'
    | (inl e, s') => (inl e, s')
    end.

(** One request to the store; a request that raises changes nothing. *)
Definition shelf_call {A}
    (f : option (list BookInfoDoc) -> A * option (list BookInfoDoc)) : L A :=
  fun env s =>
    match fault env (requests s) with
    | Some msg =>
        (inl (LoadPyMongoError msg),
         {| books := books s; requests := S (requests s) |})
    | None =>
        (inr (fst (f (books s))),
         {| books := snd (f (books s)); requests := S (requests s) |})
    end.

(** ['books' in db.list_collection_names()] *)
Definition books_listed : L bool :=
  shelf_call (fun b => (match b with Some _ => true | None => false end, b)).

(** [db.drop_collection('books')] *)
Definition books_drop : L unit := shelf_call (fun _ => (tt, None)).

(** [db['books'].insert_one(doc)]; the first insert creates the
    collection. *)
Definition books_insert_one (d : BookInfoDoc) : L unit :=
  shelf_call (fun b =>
    (tt, Some (insert_one d (match b with Some l => l | None => [] end)))).

(** The [for item in books_data] loop. *)
Fixpoint insert_rows (books_data : list (list cell)) : L unit :=
  match books_data with
  | [] => l_ret tt
  | item :: rest =>
      match doc_of_row item with
      | None => l_raise (IndexError "tuple index out of range")
      | Some doc => l_bind (books_insert_one doc) (fun _ => insert_rows rest)
      end
  end.

(** [load_books].  [book_db] and [book_lx_db] are the [book] tables of the
    two snapshot files ([None]: the file has no such table, which
    [SELECT * FROM book] reports with [sqlite3.OperationalError]). *)
Definition load_books (Use_Large_DB : bool)
    (book_db book_lx_db : option (list (list cell))) : L unit :=
  l_bind books_listed (fun listed =>
  l_bind (if listed then books_drop else l_ret tt) (fun _ =>
  match (if Use_Large_DB then book_lx_db else book_db) with
  | None => l_raise (OperationalError "no such table: book")
  | Some books_data => insert_rows books_data
  end)).

(** Documents of a collection, none if it does not exist. *)
Definition contents (b : option (list BookInfoDoc)) : list BookInfoDoc :=
  match b with Some l => l | None => [] end.

(** The collection holding [l]: it exists only with a document in it. *)
Definition collection_of (l : list BookInfoDoc) : option (list BookInfoDoc) :=
  match l with [] => None | _ :: _ => Some l end.

(** The documents of a list of rows, if every row has its 17 columns. *)
Fixpoint docs_of_rows (rows : list (list cell)) : option (list BookInfoDoc) :=
  match rows with
  | [] => Some []
  | item :: rest =>
      match doc_of_row item, docs_of_rows rest with
      | Some d, Some ds => Some (d :: ds)
      | _, _ => None
      end
  end.

(** Each of the four search arguments is kept or dropped. *)
Definition relaxed (a b : string) : Prop := b = a \/ b = "".

(** An engine of literal patterns: a pattern matches the texts that contain
    it; every pattern compiles. *)
Fixpoint is_prefix (p s : string) : bool :=
  match p, s with
  | EmptyString, _ => true
  | String a p', String b s' => (a =? b)%char && is_prefix p' s'
  | String _ _, EmptyString => false
  end.

Fixpoint occurs_in (p s : string) : bool :=
  is_prefix p s ||
  match s with
  | EmptyString => false
  | String _ s' => occurs_in p s'
  end.

Definition literal_regex : MongoRegex :=
  {| regex_compile := fun p => Some (occurs_in p);
     regex_error := fun p => "Regular expression is invalid: " ++ p |}.

(** ** Further concrete runs *)

(** A clock that moves 4000 seconds per reading. *)
Definition leaping (k : nat) : Z := 1700000000 + 4000 * Z.of_nat k.

(** A snapshot of two books; the first is the one listed in [market]. *)
Definition row (id title content tags : string) : list cell :=
  [ CText id; CText title; CText "author"; CText "publisher"; CNull; CNull;
    CText "1943"; CInt 96; CInt 1500; CText "CNY"; CText "paperback";
    CText "9780000000000"; CNull; CText "intro"; CText content; CText tags;
    CBlob "" ].

Definition snapshot : list (list cell) :=
  [ row "b1" "The Little Prince" "a pilot meets a prince" "fable";
    row "b9" "Dune" "a desert planet" "science fiction" ].

(** The catalogue after loading [snapshot] over an empty store. *)
Definition loaded_books : list BookInfoDoc :=
  contents (books (snd (load_books false (Some snapshot) None
                          (steady unix) {| books := None; requests := 0 |}))).

(** A catalogue left over from an earlier load. *)
Definition stale_shelf : Shelf :=
  {| books := Some loaded_books; requests := 0 |}.


(** * Properties *)

(** ** The executable token library meets the laws *)

Module PlainJwtFacts.
Import PlainJwt.

Lemma app_assoc_s (a b c : string) : ((a ++ b) ++ c = a ++ (b ++ c))%string.
Proof. induction a as [|x a IH]; simpl; [reflexivity | now rewrite IH]. Qed.

Lemma app_nil_r_s (a : string) : (a ++ "" = a)%string.
Proof. induction a as [|x a IH]; simpl; [reflexivity | now rewrite IH]. Qed.

Lemma dec_pos_enc_pos (p : positive) (r : string) :
  dec_pos (enc_pos p ++ r) = Some (p, r).
Proof.
  induction p as [q IH | q IH |]; simpl; try rewrite IH; reflexivity.
Qed.

Lemma dec_nat_enc_nat (n : nat) (r : string) :
  dec_nat (enc_nat n ++ r) = Some (n, r).
Proof.
  unfold dec_nat, enc_nat. rewrite dec_pos_enc_pos.
  now rewrite SuccNat2Pos.id_succ.
Qed.

Lemma dec_Z_enc_Z (z : Z) (r : string) :
  dec_Z (enc_Z z ++ r) = Some (z, r).
Proof.
  destruct z; simpl; try rewrite dec_pos_enc_pos; reflexivity.
Qed.

Lemma split_at_app (s r : string) :
  split_at (String.length s) (s ++ r) = Some (s, r).
Proof.
  induction s as [|c s IH]; simpl; [reflexivity | now rewrite IH].
Qed.

Lemma dec_str_enc_str (s r : string) :
  dec_str (enc_str s ++ r) = Some (s, r).
Proof.
  unfold dec_str, enc_str.
  rewrite app_assoc_s, dec_nat_enc_nat. apply split_at_app.
Qed.

Lemma dec_json_enc_json (v : json) (r : string) :
  dec_json (enc_json v ++ r) = Some (v, r).
Proof.
  destruct v as [| [|] | z | s]; simpl; try reflexivity.
  - now rewrite dec_Z_enc_Z.
  - now rewrite dec_str_enc_str.
Qed.

Lemma dec_entries_enc_entries (p : payload) (r : string) :
  dec_entries (List.length p) (enc_entries p ++ r) = Some (p, r).
Proof.
  induction p as [|[k v] p IH]; simpl; [reflexivity|].
  rewrite app_assoc_s, dec_str_enc_str.
  rewrite app_assoc_s, dec_json_enc_json.
  now rewrite IH.
Qed.

Lemma dec_payload_enc_payload (p : payload) :
  dec_payload (enc_payload p) = Some p.
Proof.
  unfold dec_payload, enc_payload.
  rewrite dec_nat_enc_nat.
  rewrite <- (app_nil_r_s (enc_entries p)).
  now rewrite dec_entries_enc_entries.
Qed.

Lemma enc_pos_no_dot (p : positive) : count_dots (enc_pos p) = O.
Proof. induction p; simpl; auto. Qed.

Lemma rsplit_dot_none (s : string) :
  count_dots s = O -> rsplit_dot s = None.
Proof.
  induction s as [|c s IH]; simpl; [reflexivity|].
  destruct (c =? ".")%char; [discriminate|].
  intros H. now rewrite IH.
Qed.

Lemma rsplit_dot_last (a b : string) :
  count_dots b = O -> rsplit_dot (a ++ String "." b) = Some (a, b).
Proof.
  intros Hb. induction a as [|c a IH]; simpl.
  - now rewrite rsplit_dot_none.
  - now rewrite IH.
Qed.

Lemma rsplit_dot_count (s a b : string) :
  rsplit_dot s = Some (a, b) ->
  count_dots s = S (count_dots a + count_dots b).
Proof.
  revert a b. induction s as [|c s IH]; simpl; intros a b H; [discriminate|].
  destruct (rsplit_dot s) as [[a' b']|] eqn:Hs.
  - inversion H; subst. simpl. rewrite (IH _ _ eq_refl).
    destruct (c =? ".")%char; reflexivity.
  - destruct (c =? ".")%char eqn:Hc; [|discriminate].
    inversion H; subst. simpl.
    assert (count_dots b = O) as ->; [|reflexivity].
    clear -Hs. induction b as [|x b IHb]; simpl in *; [reflexivity|].
    destruct (rsplit_dot b) as [[? ?]|]; [discriminate|].
    destruct (x =? ".")%char; [discriminate | auto].
Qed.

Lemma split_dot_none (s : string) :
  count_dots s = O -> split_dot s = None.
Proof.
  induction s as [|c s IH]; simpl; [reflexivity|].
  destruct (c =? ".")%char; [discriminate|].
  intros H. now rewrite IH.
Qed.

Lemma decode_encode_any (p : payload) (key : string) :
  key_error key = None ->
  decode (encode p key) key = Ret p.
Proof.
  intros Hkey. unfold decode, encode.
  change ("J." ++ enc_payload p ++ "." ++ sign key (enc_payload p))%string
    with (String "J" (String "." (enc_payload p
            ++ String "." (sign key (enc_payload p))))).
  replace (String "J" (String "." (enc_payload p
            ++ String "." (sign key (enc_payload p)))))
    with (("J." ++ enc_payload p)
            ++ String "." (sign key (enc_payload p)))%string by reflexivity.
  rewrite rsplit_dot_last by apply enc_pos_no_dot.
  simpl. rewrite Hkey, String.eqb_refl. simpl.
  now rewrite dec_payload_enc_payload.
Qed.

Lemma decode_few_segments (tok key : string) :
  (count_dots tok < 2)%nat ->
  exists msg, decode tok key = Raise (DecodeError msg).
Proof.
  intros H. unfold decode.
  destruct (rsplit_dot tok) as [[a b]|] eqn:Hr; [|eauto].
  apply rsplit_dot_count in Hr.
  rewrite split_dot_none by lia. eauto.
Qed.

Lemma laws : JwtLaws lib.
Proof.
  split; intros.
  - now apply decode_encode_any.
  - now apply decode_few_segments.
Qed.
End PlainJwtFacts.

Lemma catalog_laws : CatalogLaws catalog.
Proof. split; intros; simpl; lia. Qed.

(** ** Collections *)

Section CollectionFacts.
Context {D : Type} (flt : D -> bool).

Lemma find_one_existsb (c : list D) :
  existsb flt c = match find_one flt c with Some _ => true | None => false end.
Proof.
  unfold find_one. induction c as [|d c IH]; simpl; [reflexivity|].
  destruct (flt d); [reflexivity | exact IH].
Qed.

Lemma find_one_holds (c : list D) (d : D) :
  find_one flt c = Some d -> flt d = true.
Proof. unfold find_one. intros H. now apply find_some in H. Qed.

Lemma update_one_unmatched (upd : D -> D) (c : list D) :
  find_one flt c = None -> update_one flt upd c = (0, c).
Proof.
  unfold find_one. induction c as [|d c IH]; simpl; [reflexivity|].
  destruct (flt d); [discriminate|].
  intros H. now rewrite (IH H).
Qed.

Lemma update_one_matched (upd : D -> D) (c : list D) (d : D) :
  find_one flt c = Some d ->
  fst (update_one flt upd c) = 1 /\
  (flt (upd d) = true ->
   find_one flt (snd (update_one flt upd c)) = Some (upd d)).
Proof.
  unfold find_one. induction c as [|x c IH]; simpl; [discriminate|].
  destruct (flt x) eqn:Hx.
  - intros [= ->]. simpl. split; [reflexivity|]. now intros ->.
  - intros H. destruct (IH H) as [H1 H2].
    destruct (update_one flt upd c) as [n c']. simpl in *.
    split; [exact H1|]. now rewrite Hx.
Qed.

Lemma update_one_count (upd : D -> D) (c : list D) :
  fst (update_one flt upd c) =
  match find_one flt c with Some _ => 1 | None => 0 end.
Proof.
  destruct (find_one flt c) eqn:H.
  - now apply (update_one_matched upd c d).
  - now rewrite update_one_unmatched.
Qed.

Lemma delete_one_unmatched (c : list D) :
  find_one flt c = None -> delete_one flt c = (0, c).
Proof.
  unfold find_one. induction c as [|d c IH]; simpl; [reflexivity|].
  destruct (flt d); [discriminate|].
  intros H. now rewrite (IH H).
Qed.

Lemma delete_one_count (c : list D) :
  fst (delete_one flt c) =
  match find_one flt c with Some _ => 1 | None => 0 end.
Proof.
  unfold find_one. induction c as [|d c IH]; simpl; [reflexivity|].
  destruct (flt d); [reflexivity|].
  destruct (delete_one flt c). exact IH.
Qed.

(** An update that keeps a property of the documents keeps it of the
    collection. *)
Lemma update_one_Forall (P : D -> Prop) (upd : D -> D) (c : list D) :
  (forall d, P d -> P (upd d)) ->
  Forall P c -> Forall P (snd (update_one flt upd c)).
Proof.
  intros Hupd. induction 1 as [|d c Hd Hc IH]; simpl; [constructor|].
  destruct (flt d); simpl; [constructor; auto|].
  destruct (update_one flt upd c). simpl in *. constructor; auto.
Qed.
End CollectionFacts.

Lemma with_user_same (db : DB) : with_user (user db) db = db.
Proof. now destruct db. Qed.

Lemma with_order_history_same (db : DB) :
  with_order_history (order_history db) db = db.
Proof. now destruct db. Qed.

Lemma with_store_same (db : DB) : with_store (store db) db = db.
Proof. now destruct db. Qed.

(** ** The services *)

(** Unfolds the service code down to the environment's answers. *)
Ltac unfold_services :=
  unfold exec in *;
  unfold register, login, logout, unregister, change_password, add_book,
    add_stock_level, create_store, ship_order in *;
  unfold check_token, check_password, user_id_exist, store_id_exist,
    book_id_exist in *;
  unfold __check_token, jwt_encode, jwt_decode,
    user_find_one, user_insert_one, user_update_one, user_delete_one,
    user_store_find_one, user_store_insert_one,
    store_find_one, store_insert_one, store_update_one,
    order_history_find_one, order_history_update_one in *;
  unfold bson_int,
    store_call, try_except, bind, ret, raise, lift, time_time,
    is_PyMongoError, is_Exception, is_InvalidSignatureError in *.

(** Follows one branch of the code: picks the next answer or test the
    outcome depends on and splits on it. *)
Ltac branch :=
  match goal with
  | |- context [fault ?e ?k] => destruct (fault e k) eqn:?
  | |- context [find_one ?f ?c] => destruct (find_one f c) eqn:?
  | |- context [u_password ?d] => destruct (u_password d) eqn:?
  | |- context [jwt_lib_decode ?t ?k] => destruct (jwt_lib_decode t k) eqn:?
  | |- context [jwt_lib_key_error ?k] => destruct (jwt_lib_key_error k) eqn:?
  | |- context [int64 ?n] => destruct (int64 n) eqn:?
  | |- context [if negb ?b then _ else _] => destruct b eqn:?
  | |- context [if ?b then _ else _] => destruct b eqn:?
  | |- context [match ?x with Some _ => _ | None => _ end] => destruct x eqn:?
  | |- context [match ?x with JNull => _ | _ => _ end] => destruct x eqn:?
  end; cbn [negb fst snd conn ticks calls code_of tuple] in *.

Section Properties.
Context {J : JwtLib} {E : ErrorCatalog}.

Lemma has_user_found (uid : string) (db : DB) :
  has_user uid db = true ->
  exists d, find_one (by_user_id uid) (user db) = Some d.
Proof.
  unfold has_user. rewrite find_one_existsb.
  destruct (find_one _ _); [eauto | discriminate].
Qed.

Lemma has_store_found (sid : string) (db : DB) :
  has_store sid db = true ->
  exists d, find_one (by_store_id sid) (user_store db) = Some d.
Proof.
  unfold has_store. rewrite find_one_existsb.
  destruct (find_one _ _); [eauto | discriminate].
Qed.

(** C10. [ship_order] looks at [user_id] and [store_id] only to see that
    they exist: with the same surroundings and the same starting state, two
    calls for the same order by any two existing users through any two
    existing shops give the same reply and leave the same state. *)
Theorem ship_order_ignores_caller (env : Env) (w : World)
    (u1 u2 s1 s2 order_id : string) :
  calm env ->
  has_user u1 (conn w) = true -> has_user u2 (conn w) = true ->
  has_store s1 (conn w) = true -> has_store s2 (conn w) = true ->
  ship_order u1 s1 order_id env w = ship_order u2 s2 order_id env w.
Proof.
  intros Hcalm Hu1 Hu2 Hs1 Hs2.
  apply has_user_found in Hu1, Hu2. apply has_store_found in Hs1, Hs2.
  destruct Hu1 as [d1 Hu1], Hu2 as [d2 Hu2],
           Hs1 as [e1 Hs1], Hs2 as [e2 Hs2].
  unfold_services. cbn. rewrite !Hcalm.
  rewrite Hu1, Hu2.
  destruct (fault env (calls w)); [reflexivity|]. cbn.
  rewrite !Hcalm, Hs1, Hs2.
  destruct (fault env (S (calls w))); reflexivity.
Qed.

(** An update or a delete that reports no match left the collection as it
    was. *)
Lemma update_one_zero (uid : string) (upd : UserDoc -> UserDoc) (db : DB) :
  (fst (update_one (by_user_id uid) upd (user db)) =? 0) = true ->
  with_user (snd (update_one (by_user_id uid) upd (user db))) db = db.
Proof.
  rewrite Z.eqb_eq, update_one_count.
  destruct (find_one _ _) eqn:H; [discriminate|]. intros _.
  rewrite update_one_unmatched by exact H. apply with_user_same.
Qed.

Lemma delete_one_not_one (uid : string) (db : DB) :
  (fst (delete_one (by_user_id uid) (user db)) =? 1) = false ->
  with_user (snd (delete_one (by_user_id uid) (user db))) db = db.
Proof.
  rewrite Z.eqb_neq, delete_one_count.
  destruct (find_one _ _) eqn:H; [congruence|]. intros _.
  rewrite delete_one_unmatched by exact H. apply with_user_same.
Qed.

(** A call that answers with a code other than 200 has written nothing. *)
Lemma refusal_writes_nothing (env : Env) (c : command) (w w' : World)
    (r : reply) :
  calm env ->
  exec c env w = (Ret r, w') ->
  code_of r <> 200 ->
  conn w' = conn w.
Proof.
  intros Hcalm H. revert H.
  destruct c; unfold_services; unfold py_sub; cbn;
    repeat (repeat rewrite Hcalm; branch); repeat rewrite Hcalm;
    try discriminate;
    intros [= <- <-]; cbn; intros Hc;
    try reflexivity; try (now elim Hc);
    try (now apply update_one_zero); try (now apply delete_one_not_one).
Qed.

(** C7. Whenever a call answers with a failed precondition (missing or
    duplicate user, shop or book, unknown order, order not paid), the
    collections are afterwards exactly what they were before the call. *)
Theorem failed_precondition_writes_nothing (env : Env) (c : command)
    (w w' : World) (r : reply) :
  CatalogLaws E ->
  calm env ->
  exec c env w = (Ret r, w') ->
  precondition_failure r ->
  conn w' = conn w.
Proof.
  intros HE Hcalm Hrun Hr.
  apply (refusal_writes_nothing env c w w' r Hcalm Hrun).
  destruct HE. destruct Hr; cbn; auto; lia.
Qed.

(** One call keeps the stock levels at or above zero when it is given no
    negative quantity. *)
Lemma exec_keeps_stock (env : Env) (c : command) (w : World) :
  calm env -> nonneg_args c ->
  stock_ok (conn w) -> stock_ok (conn (snd (exec c env w))).
Proof.
  intros Hcalm Hc Hw. unfold stock_ok in *.
  destruct c; unfold_services; unfold py_sub; cbn in *;
    repeat (repeat rewrite Hcalm; branch); repeat rewrite Hcalm;
    cbn; try assumption.
  - unfold insert_one. apply Forall_app. split; [assumption|].
    constructor; [exact Hc | constructor].
  - apply update_one_Forall; [|assumption].
    intros d Hd. unfold inc_stock_level. cbn. lia.
Qed.

(** C5, as the code has it.  Neither [add_book] nor [add_stock_level]
    checks the sign of the quantity.  If every listing starts at or above
    zero and every initial stock level and every delta handed in is at
    least zero, then after any sequence of calls every listing is still at
    or above zero. *)
Theorem stock_level_stays_nonnegative (env : Env) (cs : list command)
    (w : World) :
  calm env ->
  Forall nonneg_args cs ->
  stock_ok (conn w) ->
  stock_ok (conn (run cs env w)).
Proof.
  intros Hcalm Hcs. revert w.
  induction Hcs as [|c cs Hc _ IH]; intros w Hw; simpl; [exact Hw|].
  apply IH. now apply exec_keeps_stock.
Qed.
End Properties.

Section TokenProperties.
Context {J : JwtLib} {E : ErrorCatalog}.

(** When [__check_token] answers [True]: the two tokens are equal, the
    token decodes under the user's key, the payload has a [timestamp] that
    is not [None], and the clock is at most [token_lifetime] past it. *)
Lemma check_token_true_iff (env : Env) (w w' : World)
    (user_id db_token token : string) :
  __check_token user_id db_token token env w = (Ret true, w') <->
  db_token = token /\
  exists p ts age,
    jwt_lib_decode token user_id = Ret p /\
    dict_get "timestamp" p = Some ts /\ ts <> JNull /\
    py_sub (time env (ticks w)) ts = Ret age /\
    age <= token_lifetime /\
    w' = ticked w.
Proof.
  unfold __check_token, jwt_decode, try_except, bind, lift, ret, time_time,
    is_InvalidSignatureError, ticked.
  split.
  - destruct (db_token =? token)%string eqn:Heq; cbn; [|discriminate].
    apply String.eqb_eq in Heq.
    destruct (jwt_lib_decode token user_id) as [p|e] eqn:Hd; cbn.
    + destruct (dict_get "timestamp" p) as [ts|] eqn:Hts; [|discriminate].
      destruct ts; cbn; try discriminate;
        (match goal with
         | |- context [?a <=? token_lifetime] =>
             destruct (a <=? token_lifetime) eqn:Hage
         end; cbn; [|discriminate]);
        intros [= <-]; apply Z.leb_le in Hage;
        (split; [exact Heq|]);
        eexists _, _, _;
        (split; [reflexivity|]); (split; [exact Hts|]);
        (split; [discriminate|]); (split; [reflexivity|]);
        (split; [exact Hage | reflexivity]).
    + destruct e; discriminate.
  - intros (-> & p & ts & age & Hd & Hts & Hnull & Hsub & Hage & ->).
    rewrite String.eqb_refl. cbn. rewrite Hd, Hts.
    apply Z.leb_le in Hage.
    destruct ts; [congruence | | |]; cbn in *;
      try discriminate; injection Hsub as <-; rewrite Hage; reflexivity.
Qed.

(** C1 fails on the code for a token that equals the stored one and does
    not decode: [__check_token] catches [InvalidSignatureError] only, so
    the library's [DecodeError] leaves the function.  The stored token of a
    user document without a [token] field is the empty text. *)
Theorem check_token_decode_error_escapes (env : Env) (w : World)
    (user_id token : string) :
  JwtLaws J ->
  (count_dots token < 2)%nat ->
  exists msg,
    __check_token user_id token token env w = (Raise (DecodeError msg), w).
Proof.
  intros HJ Hdots.
  destruct (decode_segments J HJ token user_id Hdots) as [msg Hmsg].
  exists msg.
  unfold __check_token, jwt_decode, try_except, bind, lift.
  rewrite String.eqb_refl. cbn. now rewrite Hmsg.
Qed.

(** The same through [check_token]. *)
Lemma check_token_raises_on_stored_garbage (env : Env) (w : World)
    (user_id token : string) :
  JwtLaws J -> calm env -> reliable env ->
  stored_token user_id (conn w) = Some token ->
  (count_dots token < 2)%nat ->
  exists msg, fst (check_token user_id token env w) = Raise (DecodeError msg).
Proof.
  intros HJ Hcalm Hrel Hst Hdots. unfold stored_token in Hst.
  destruct (find_one _ _) as [doc|] eqn:Hdoc; [|discriminate].
  injection Hst as Hst.
  destruct (decode_segments J HJ token user_id Hdots) as [msg Hmsg].
  exists msg.
  unfold_services. cbn. rewrite Hrel, Hcalm. cbn.
  rewrite Hdoc, Hst, String.eqb_refl. cbn. now rewrite Hmsg.
Qed.

(** C4 fails on the code for [check_token]: it reads the store outside of
    any [try], so a [PyMongoError] of [find_one] leaves the function, where
    [check_password] on the same failure answers with code 528. *)
Theorem check_token_lets_store_error_through (env : Env) (w : World)
    (user_id token password msg : string) :
  fault env (calls w) = Some msg ->
  fst (check_token user_id token env w) = Raise (PyMongoError msg) /\
  fst (check_password user_id password env w) = Ret (Pair 528 msg).
Proof.
  intros Hf. unfold_services. cbn. rewrite Hf. cbn. split; reflexivity.
Qed.

(** What a successful [login] leaves behind: the token it returns is the
    one signed at the clock reading of the call, and it is the stored token
    of the user. *)
Lemma login_success (env : Env) (w w1 : World)
    (user_id password terminal tok : string) :
  login user_id password terminal env w = (Ret (Triple 200 "ok" tok), w1) ->
  jwt_lib_key_error user_id = None /\
  tok = jwt_lib_encode (claims user_id terminal (time env (ticks w))) user_id /\
  ticks w1 = S (ticks w) /\
  stored_token user_id (conn w1) = Some tok.
Proof.
  unfold_services. cbn.
  repeat branch; try discriminate;
    intros H; inversion H; subst; clear H; cbn.
  all: try match goal with
       | H1 : ?x = 200, H2 : (?x =? 200) = false |- _ =>
           rewrite H1 in H2; discriminate H2
       end.
  all: split; [first [assumption | reflexivity]|].
  all: match goal with
       | H : (fst (update_one _ _ ?c) =? 0) = false |- _ =>
           apply Z.eqb_neq in H; rewrite update_one_count in H;
           destruct (find_one (by_user_id user_id) c) as [d|] eqn:Hd;
           [clear H | congruence]
       end.
  all: repeat split; unfold stored_token; cbn.
  all: edestruct (update_one_matched (by_user_id user_id)) as [_ Hm];
         [exact Hd|].
  all: rewrite Hm; [reflexivity|].
  all: apply find_one_holds in Hd; exact Hd.
Qed.

(** C6. A token returned by a successful [login] is accepted by
    [check_token] called right after, when the clock reading of the check
    is at most 3600 seconds past the reading that stamped the token. *)
Theorem login_then_check_token (env : Env) (w w1 : World)
    (user_id password terminal tok : string) :
  JwtLaws J ->
  calm env -> reliable env ->
  login user_id password terminal env w = (Ret (Triple 200 "ok" tok), w1) ->
  time env (ticks w1) - time env (ticks w) <= token_lifetime ->
  fst (check_token user_id tok env w1) = Ret (Pair 200 "ok").
Proof.
  intros HJ Hcalm Hrel Hlogin Hage.
  apply login_success in Hlogin.
  destruct Hlogin as (Hkey & Htok & Hticks & Hst).
  unfold stored_token in Hst.
  destruct (find_one _ _) as [doc|] eqn:Hdoc; [|discriminate].
  injection Hst as Hst.
  unfold check_token, bind, user_find_one, store_call.
  rewrite Hrel, Hcalm. cbn. rewrite Hdoc, Hst.
  set (w2 := {| conn := conn w1; ticks := ticks w1; calls := S (calls w1) |}).
  assert (Hok : __check_token user_id tok tok env w2 = (Ret true, ticked w2)).
  { apply check_token_true_iff. split; [reflexivity|].
    exists (claims user_id terminal (time env (ticks w))),
           (JNum (time env (ticks w))),
           (time env (ticks w1) - time env (ticks w)).
    repeat split; try assumption; try discriminate.
    rewrite Htok. now apply (decode_encode J HJ). }
  rewrite Hok. reflexivity.
Qed.

(** Tokens signed under an accepted key for different terminals or
    different clock readings differ. *)
Lemma encode_inj (uid t1 t2 : string) (s1 s2 : Z) :
  JwtLaws J ->
  jwt_lib_key_error uid = None ->
  jwt_lib_encode (claims uid t1 s1) uid = jwt_lib_encode (claims uid t2 s2) uid ->
  (t1, s1) = (t2, s2).
Proof.
  intros HJ Hkey Heq.
  pose proof (decode_encode J HJ uid t1 s1 uid Hkey) as H1.
  rewrite Heq, (decode_encode J HJ _ _ _ _ Hkey) in H1.
  unfold claims in H1. now inversion H1.
Qed.

(** A token other than the stored one is refused. *)
Lemma check_token_mismatch (env : Env) (w : World)
    (user_id token stored : string) :
  calm env -> reliable env ->
  stored_token user_id (conn w) = Some stored ->
  stored <> token ->
  fst (check_token user_id token env w) = Ret (tuple error_authorization_fail).
Proof.
  intros Hcalm Hrel Hst Hne. unfold stored_token in Hst.
  destruct (find_one _ _) as [doc|] eqn:Hdoc; [|discriminate].
  injection Hst as Hst. apply String.eqb_neq in Hne.
  unfold_services. cbn. rewrite Hrel, Hcalm. cbn. rewrite Hdoc, Hst, Hne.
  reflexivity.
Qed.

(** After a successful [login], [logout] or [change_password] the library
    accepts the user id as key, and the stored token of the user is the one
    signed for the terminal and the clock reading of [replacement]. *)
Lemma rotation_stores_fresh_token (env : Env) (c : command) (w w' : World)
    (r : reply) (uid : string) :
  CatalogLaws E -> calm env ->
  rotates uid c ->
  exec c env w = (Ret r, w') ->
  code_of r = 200 ->
  jwt_lib_key_error uid = None /\
  exists term ts,
    replacement c env w = Some (term, ts) /\
    stored_token uid (conn w') =
      Some (jwt_lib_encode (claims uid term ts) uid).
Proof.
  intros HE Hcalm Hrot H. revert H.
  destruct c; cbn in Hrot; try contradiction; subst;
    unfold_services; unfold py_sub; cbn;
    repeat (repeat rewrite Hcalm; branch); repeat rewrite Hcalm;
    try discriminate;
    intros H; inversion H; subst; clear H; cbn; intros Hcode;
    try discriminate.
  all: try (exfalso; apply (authorization_fail_code E HE);
            match goal with
            | H : fst error_authorization_fail = 200 |- _ => exact H
            | H : (fst error_authorization_fail =? 200) = true |- _ =>
                apply Z.eqb_eq in H; exact H
            end).
  all: split; [first [assumption | reflexivity]|].
  all: match goal with
       | Hd : find_one (by_user_id ?u) (user (conn _)) = Some ?d |- _ =>
           eexists _, _; split; [reflexivity|];
           unfold stored_token; cbn;
           edestruct (update_one_matched (by_user_id u)) as [_ Hm];
           [ exact Hd
           | rewrite Hm;
             [ reflexivity | apply find_one_holds in Hd; exact Hd ] ]
       end.
Qed.

(** A token older than 3600 seconds is judged invalid, the stored one
    included. *)
Lemma check_token_rejects_expired (env : Env) (w : World)
    (user_id terminal : string) (ts : Z) :
  JwtLaws J ->
  jwt_lib_key_error user_id = None ->
  token_lifetime < time env (ticks w) - ts ->
  __check_token user_id
    (jwt_lib_encode (claims user_id terminal ts) user_id)
    (jwt_lib_encode (claims user_id terminal ts) user_id) env w
  = (Ret false, ticked w).
Proof.
  intros HJ Hkey Hage.
  unfold __check_token, try_except, bind, jwt_decode, lift, ret, time_time.
  rewrite String.eqb_refl. cbn. rewrite (decode_encode J HJ) by exact Hkey.
  cbn. apply Z.leb_gt in Hage. now rewrite Hage.
Qed.

(** C2, as the code has it.  A token [T] issued to [uid] earlier, for
    terminal [terminal0] at clock reading [ts0], is refused with the
    authorization failure after a successful [login], [logout] or
    [change_password] of [uid], unless that call signs the same terminal at
    the same reading and [T] has not expired.  (The new token is a function
    of user, terminal and clock reading: for the same terminal at the same
    reading it is [T] again, which is then accepted for as long as it is
    not older than 3600 seconds.) *)
Theorem rotation_invalidates_previous_token (env : Env) (c : command)
    (w w' : World) (r : reply) (uid terminal0 : string) (ts0 : Z) :
  JwtLaws J -> CatalogLaws E ->
  calm env -> reliable env ->
  rotates uid c ->
  (replacement c env w = Some (terminal0, ts0) ->
   token_lifetime < time env (ticks w') - ts0) ->
  exec c env w = (Ret r, w') ->
  code_of r = 200 ->
  fst (check_token uid (jwt_lib_encode (claims uid terminal0 ts0) uid) env w')
  = Ret (tuple error_authorization_fail).
Proof.
  intros HJ HE Hcalm Hrel Hrot Hnew Hrun Hcode.
  destruct (rotation_stores_fresh_token env c w w' r uid HE Hcalm Hrot
              Hrun Hcode) as (Hkey & term & ts & Hrep & Hst).
  destruct (String.eqb_spec term terminal0) as [-> | Hterm];
    [destruct (Z.eq_dec ts ts0) as [-> | Hts]|].
  - specialize (Hnew Hrep).
    unfold stored_token in Hst.
    destruct (find_one _ _) as [doc|] eqn:Hdoc; [|discriminate].
    injection Hst as Hst.
    unfold check_token, bind, user_find_one, store_call.
    rewrite Hrel, Hcalm. cbn. rewrite Hdoc, Hst.
    rewrite check_token_rejects_expired by assumption.
    reflexivity.
  - apply (check_token_mismatch env w' uid _ _ Hcalm Hrel Hst).
    intros Heq. apply (encode_inj _ _ _ _ _ HJ Hkey) in Heq. congruence.
  - apply (check_token_mismatch env w' uid _ _ Hcalm Hrel Hst).
    intros Heq. apply (encode_inj _ _ _ _ _ HJ Hkey) in Heq. congruence.
Qed.

(** The other side: when the call signs [terminal0] at [ts0], the stored
    token is [T] itself, and [check_token] accepts it while it is not older
    than 3600 seconds. *)
Lemma rotation_can_reissue (env : Env) (c : command)
    (w w' : World) (r : reply) (uid terminal0 : string) (ts0 : Z) :
  JwtLaws J -> CatalogLaws E ->
  calm env -> reliable env ->
  rotates uid c ->
  replacement c env w = Some (terminal0, ts0) ->
  exec c env w = (Ret r, w') ->
  code_of r = 200 ->
  time env (ticks w') - ts0 <= token_lifetime ->
  fst (check_token uid (jwt_lib_encode (claims uid terminal0 ts0) uid) env w')
  = Ret (Pair 200 "ok").
Proof.
  intros HJ HE Hcalm Hrel Hrot Hsame Hrun Hcode Hage.
  destruct (rotation_stores_fresh_token env c w w' r uid HE Hcalm Hrot
              Hrun Hcode) as (Hkey & term & ts & Hrep & Hst).
  rewrite Hsame in Hrep. inversion Hrep; subst term ts; clear Hrep.
  unfold stored_token in Hst.
  destruct (find_one _ _) as [doc|] eqn:Hdoc; [|discriminate].
  injection Hst as Hst.
  unfold check_token, bind, user_find_one, store_call.
  rewrite Hrel, Hcalm. cbn. rewrite Hdoc, Hst.
  match goal with |- context [__check_token uid ?t ?t env ?w2] =>
    assert (Hok : __check_token uid t t env w2 = (Ret true, ticked w2))
  end.
  { apply check_token_true_iff. split; [reflexivity|].
    exists (claims uid terminal0 ts0), (JNum ts0),
           (time env (ticks w') - ts0).
    repeat split; try assumption; try discriminate.
    now apply (decode_encode J HJ). }
  rewrite Hok. reflexivity.
Qed.
End TokenProperties.

Section FulfillmentProperties.
Context {J : JwtLib} {E : ErrorCatalog}.

(** The reply of [ship_order] when the store answers every call and nobody
    else writes: the checks in the order of the code. *)
Lemma ship_order_reply (env : Env) (w : World)
    (user_id store_id order_id : string) :
  calm env -> reliable env ->
  fst (ship_order user_id store_id order_id env w) =
  if negb (has_user user_id (conn w))
  then Ret (tuple (error_non_exist_user_id user_id))
  else if negb (has_store store_id (conn w))
  then Ret (tuple (error_exist_store_id store_id))
  else match order_status order_id (conn w) with
       | None => Ret (Pair 400 "Invalid order ID")
       | Some s => if (s =? "paid")%string then Ret (Pair 200 "ok")
                   else Ret (Pair 400 "Order is not paid")
       end.
Proof.
  intros Hcalm Hrel.
  unfold has_user, has_store, order_status. rewrite !find_one_existsb.
  unfold_services. cbn.
  repeat (repeat rewrite Hcalm; repeat rewrite Hrel; cbn; try branch);
    reflexivity.
Qed.

(** The collections after [ship_order] answered 200: the order found for
    [order_id] is now [shipped], users and shops are as before. *)
Lemma ship_order_effect (env : Env) (w w' : World)
    (user_id store_id order_id : string) :
  CatalogLaws E -> calm env -> reliable env ->
  ship_order user_id store_id order_id env w = (Ret (Pair 200 "ok"), w') ->
  order_status order_id (conn w') = Some "shipped" /\
  user (conn w') = user (conn w) /\
  user_store (conn w') = user_store (conn w).
Proof.
  intros HE Hcalm Hrel.
  unfold_services. cbn.
  repeat (repeat rewrite Hcalm; repeat rewrite Hrel; cbn; try branch);
    intros H; inversion H; subst; clear H; unfold order_status;
    cbn [conn with_order_history order_history user user_store].
  all: try match goal with
       | H : fst (error_non_exist_user_id _) = 200 |- _ =>
           now elim (non_exist_user_id_code E HE _ H)
       | H : fst (error_exist_store_id _) = 200 |- _ =>
           now elim (exist_store_id_code E HE _ H)
       end.
  all: match goal with
       | H : find_one (by_order_id ?o) ?c = Some ?d |- _ =>
           destruct (update_one_matched (by_order_id o)
                       (set_status "shipped") c d H) as [_ Hm];
           rewrite Hm; [now repeat split | apply find_one_holds in H; exact H]
       end.
Qed.

(** C3. With the store answering and nobody else writing, [ship_order]
    answers 200 exactly when the user exists, the shop exists, the order
    exists and its status is [paid], and the order is then [shipped].
    Otherwise, in the order of the checks: a missing shop gives the
    catalogue's [error_exist_store_id] reply, a missing order gives
    "Invalid order ID", any status other than [paid] gives "Order is not
    paid".  After a successful call, shipping the same order again, by
    whatever existing user and shop, gives "Order is not paid". *)
Theorem ship_order_decision (env : Env) (w : World)
    (user_id store_id order_id : string) :
  CatalogLaws E -> calm env -> reliable env ->
  let db := conn w in
  let out := ship_order user_id store_id order_id env w in
  (fst out = Ret (Pair 200 "ok") <->
     has_user user_id db = true /\ has_store store_id db = true /\
     order_status order_id db = Some "paid") /\
  (fst out = Ret (Pair 200 "ok") ->
     order_status order_id (conn (snd out)) = Some "shipped") /\
  (has_user user_id db = true -> has_store store_id db = false ->
     fst out = Ret (tuple (error_exist_store_id store_id))) /\
  (has_user user_id db = true -> has_store store_id db = true ->
     order_status order_id db = None ->
     fst out = Ret (Pair 400 "Invalid order ID")) /\
  (has_user user_id db = true -> has_store store_id db = true ->
     forall s, order_status order_id db = Some s -> s <> "paid" ->
     fst out = Ret (Pair 400 "Order is not paid")) /\
  (fst out = Ret (Pair 200 "ok") ->
     forall u' s', has_user u' db = true -> has_store s' db = true ->
     fst (ship_order u' s' order_id env (snd out))
     = Ret (Pair 400 "Order is not paid")).
Proof.
  intros HE Hcalm Hrel db out.
  pose proof (ship_order_reply env w user_id store_id order_id Hcalm Hrel)
    as Hout.
  fold db out in Hout.
  assert (Hiff : fst out = Ret (Pair 200 "ok") <->
     has_user user_id db = true /\ has_store store_id db = true /\
     order_status order_id db = Some "paid").
  { rewrite Hout. split.
    - destruct (has_user user_id db); cbn.
      2:{ intros [= H _]. now elim (non_exist_user_id_code E HE _ H). }
      destruct (has_store store_id db); cbn.
      2:{ intros [= H _]. now elim (exist_store_id_code E HE _ H). }
      destruct (order_status order_id db) as [s|]; [|discriminate].
      destruct (s =? "paid")%string eqn:Hs; [|discriminate].
      apply String.eqb_eq in Hs. now subst.
    - intros (-> & -> & ->). reflexivity. }
  assert (Heff : fst out = Ret (Pair 200 "ok") ->
     order_status order_id (conn (snd out)) = Some "shipped" /\
     user (conn (snd out)) = user db /\
     user_store (conn (snd out)) = user_store db).
  { intros H. apply (ship_order_effect env w (snd out) user_id store_id
                       order_id HE Hcalm Hrel).
    rewrite <- H. subst out. now destruct (ship_order _ _ _ _ _). }
  split; [exact Hiff|].
  split; [intros H; now apply Heff|].
  split; [intros Hu Hs; rewrite Hout, Hu, Hs; reflexivity|].
  split; [intros Hu Hs Ho; rewrite Hout, Hu, Hs, Ho; reflexivity|].
  split.
  - intros Hu Hs s Ho Hne. rewrite Hout, Hu, Hs, Ho. cbn.
    apply String.eqb_neq in Hne. now rewrite Hne.
  - intros Hok u' s' Hu' Hs'.
    destruct (Heff Hok) as (Hst & Husers & Hshops).
    rewrite (ship_order_reply env (snd out) u' s' order_id Hcalm Hrel).
    unfold has_user, has_store in *.
    rewrite Husers, Hshops, Hu', Hs', Hst. reflexivity.
Qed.
End FulfillmentProperties.

Section AuthorizationProperties.
Context {J : JwtLib} {E : ErrorCatalog}.

(** Reduces the code around an answer that has just been rewritten in. *)
Local Ltac next := cbv beta iota; change (negb (200 =? 200)) with false;
                   cbv beta iota.


(** C9, as the code has it.  [change_password] does not look at what its
    update matched: when the password check passes, the token library
    accepts the user id as key and the store answers, the reply is
    (200, "ok") whatever other clients did to the user's record between
    the check and the write, also when the write found no record. *)
Theorem change_password_ignores_matched_count (env : Env) (w : World)
    (user_id old_password new_password : string) :
  reliable env ->
  jwt_lib_key_error user_id = None ->
  fst (check_password user_id old_password env w) = Ret (Pair 200 "ok") ->
  fst (change_password user_id old_password new_password env w)
  = Ret (Pair 200 "ok").
Proof.
  intros Hrel Hkey Hpw. unfold change_password, try_except, bind.
  destruct (check_password user_id old_password env w) as [o w1].
  cbn in Hpw. subst o. next.
  unfold time_time, jwt_encode, bind, time_time, ret, user_update_one,
    store_call.
  cbv beta iota. rewrite Hkey, Hrel. reflexivity.
Qed.

(** The other side: for a user id that the library refuses as key,
    [jwt_encode] raises inside the [try] of [change_password], and the
    reply is that of [except Exception], with nothing written, although the
    password check passed and the store answered. *)
Lemma change_password_refused_key (env : Env) (w w1 : World)
    (user_id old_password new_password msg : string) :
  jwt_lib_key_error user_id = Some msg ->
  check_password user_id old_password env w = (Ret (Pair 200 "ok"), w1) ->
  change_password user_id old_password new_password env w
  = (Ret (Pair 530 msg), ticked (ticked w1)).
Proof.
  intros Hkey Hpw. unfold change_password, try_except, bind.
  rewrite Hpw. next.
  unfold time_time, jwt_encode, bind, time_time, ret, raise, is_PyMongoError,
    is_Exception.
  cbv beta iota. rewrite Hkey. reflexivity.
Qed.

(** The sibling operations do look: with an update or delete that matches
    no record they answer with the authorization failure. *)
Lemma logout_zero_rows (env : Env) (w w1 w2 w3 w4 : World)
    (user_id token tok : string) (t : Z) :
  check_token user_id token env w = (Ret (Pair 200 "ok"), w1) ->
  time_time env w1 = (Ret t, w2) ->
  jwt_encode user_id ("terminal_" ++ str_time t) env w2 = (Ret tok, w3) ->
  user_update_one user_id
    (set_token_terminal tok ("terminal_" ++ str_time t)) env w3
  = (Ret 0, w4) ->
  fst (logout user_id token env w) = Ret (tuple error_authorization_fail).
Proof.
  intros Hcheck Htime Henc Hupd. unfold logout, try_except, bind.
  rewrite Hcheck. next. rewrite Htime. next. rewrite Henc. next.
  rewrite Hupd. reflexivity.
Qed.

Lemma unregister_zero_rows (env : Env) (w w1 w2 : World)
    (user_id password : string) :
  check_password user_id password env w = (Ret (Pair 200 "ok"), w1) ->
  user_delete_one user_id env w1 = (Ret 0, w2) ->
  fst (unregister user_id password env w) = Ret (tuple error_authorization_fail).
Proof.
  intros Hpw Hdel. unfold unregister, try_except, bind.
  rewrite Hpw. next. rewrite Hdel. reflexivity.
Qed.
End AuthorizationProperties.

Section RejectionProperties.
Context {J : JwtLib} {E : ErrorCatalog}.


Lemma check_token_rejects_bad_signature (env : Env) (w : World)
    (user_id token msg : string) :
  jwt_lib_decode token user_id = Raise (InvalidSignatureError msg) ->
  __check_token user_id token token env w = (Ret false, w).
Proof.
  intros Hd. unfold __check_token, try_except, bind, jwt_decode, lift, ret.
  rewrite String.eqb_refl. cbn. now rewrite Hd.
Qed.

Lemma check_token_rejects_missing_timestamp (env : Env) (w : World)
    (user_id token : string) (p : payload) :
  jwt_lib_decode token user_id = Ret p ->
  dict_get "timestamp" p = None ->
  __check_token user_id token token env w = (Ret false, w).
Proof.
  intros Hd Hts. unfold __check_token, try_except, bind, jwt_decode, lift, ret.
  rewrite String.eqb_refl. cbn. now rewrite Hd, Hts.
Qed.


(** X26. A token checked more than 3600 seconds after it was stamped is
    refused, although it is still the stored one. *)
Lemma login_then_late_check_token (env : Env) (w w1 : World)
    (user_id password terminal tok : string) :
  JwtLaws J ->
  calm env -> reliable env ->
  login user_id password terminal env w = (Ret (Triple 200 "ok" tok), w1) ->
  token_lifetime < time env (ticks w1) - time env (ticks w) ->
  fst (check_token user_id tok env w1) = Ret (tuple error_authorization_fail).
Proof.
  intros HJ Hcalm Hrel Hlogin Hage.
  apply login_success in Hlogin.
  destruct Hlogin as (Hkey & Htok & Hticks & Hst).
  unfold stored_token in Hst.
  destruct (find_one _ _) as [doc|] eqn:Hdoc; [|discriminate].
  injection Hst as Hst.
  unfold check_token, bind, user_find_one, store_call.
  rewrite Hrel, Hcalm. cbn. rewrite Hdoc, Hst, Htok.
  rewrite check_token_rejects_expired by assumption.
  reflexivity.
Qed.

(** X25. The calls whose body sits under a handler for every exception
    ([except Exception] in [login], [logout], [unregister] and
    [change_password], [except BaseException] in [add_book],
    [add_stock_level] and [create_store]) always end with a reply, whatever
    the store, the clock, the token library and other clients do.
    [register], [check_token], [check_password] and [ship_order] have no
    such handler. *)
Theorem guarded_calls_answer (env : Env) (c : command) (w : World) :
  guarded c ->
  exists r, fst (exec c env w) = Ret r.
Proof.
  destruct c; cbn [guarded]; try contradiction; intros _;
    unfold_services; unfold py_sub; cbn;
    repeat branch; cbn; eauto.
Qed.

(** X27. [register] catches [PyMongoError] only: for a free user id that
    the token library refuses as key it raises [InvalidKeyError], having
    written nothing. *)
Theorem register_refused_key (env : Env) (w : World)
    (user_id password msg : string) :
  calm env -> reliable env ->
  jwt_lib_key_error user_id = Some msg ->
  has_user user_id (conn w) = false ->
  fst (register user_id password env w) = Raise (InvalidKeyError msg) /\
  conn (snd (register user_id password env w)) = conn w.
Proof.
  intros Hcalm Hrel Hkey Hfree.
  unfold has_user in Hfree. rewrite find_one_existsb in Hfree.
  unfold_services; unfold py_sub; cbn.
  rewrite Hrel, Hcalm. cbn.
  destruct (find_one _ _); [discriminate|]. cbn.
  rewrite Hkey. cbn. split; reflexivity.
Qed.
End RejectionProperties.

(** ** The laws hold of the environments used below *)

Lemma steady_calm (clock : nat -> Z) : calm (steady clock).
Proof. intros k db. reflexivity. Qed.

Lemma steady_reliable (clock : nat -> Z) : reliable (steady clock).
Proof. intros k. reflexivity. Qed.

Lemma failing_once_calm (msg : string) (clock : nat -> Z) :
  calm (failing_once msg clock).
Proof. intros k db. reflexivity. Qed.

Lemma deleting_before_reliable (n : nat) (uid : string) (clock : nat -> Z) :
  reliable (deleting_before n uid clock).
Proof. intros k. reflexivity. Qed.

(** ** How the services run when left alone *)

Section MoreCollectionFacts.
Context {D : Type}.

Lemma find_one_insert_one (flt : D -> bool) (d : D) (c : list D) :
  find_one flt (insert_one d c) =
  match find_one flt c with
  | Some x => Some x
  | None => if flt d then Some d else None
  end.
Proof.
  unfold find_one, insert_one. induction c as [|x c IH]; simpl.
  - reflexivity.
  - destruct (flt x); [reflexivity | exact IH].
Qed.

Lemma existsb_update_one (flt g : D -> bool) (upd : D -> D) (c : list D) :
  (forall d, g (upd d) = g d) ->
  existsb g (snd (update_one flt upd c)) = existsb g c.
Proof.
  intros Hg. induction c as [|x c IH]; simpl; [reflexivity|].
  destruct (flt x); simpl.
  - now rewrite Hg.
  - destruct (update_one flt upd c). simpl in *. now rewrite IH.
Qed.

Lemma map_update_one {K : Type} (key : D -> K) (flt : D -> bool)
    (upd : D -> D) (c : list D) :
  (forall d, key (upd d) = key d) ->
  map key (snd (update_one flt upd c)) = map key c.
Proof.
  intros Hk. induction c as [|x c IH]; simpl; [reflexivity|].
  destruct (flt x); simpl.
  - now rewrite Hk.
  - destruct (update_one flt upd c). simpl in *. now rewrite IH.
Qed.

(** With one document per key, deleting the document of a key leaves none
    for it. *)
Lemma find_one_delete_one {K : Type} (key : D -> K) (k : K)
    (flt : D -> bool) (c : list D) :
  (forall d, flt d = true <-> key d = k) ->
  NoDup (map key c) ->
  find_one flt (snd (delete_one flt c)) = None.
Proof.
  intros Hflt. unfold find_one.
  induction c as [|x c IH]; simpl; intros Hnd; [reflexivity|].
  inversion Hnd as [|? ? Hx Hc]; subst.
  destruct (flt x) eqn:Hfx; simpl.
  - apply Hflt in Hfx.
    destruct (find flt c) as [y|] eqn:Hy; [|reflexivity].
    apply find_some in Hy. destruct Hy as [Hin Hfy]. apply Hflt in Hfy.
    elim Hx. rewrite Hfx, <- Hfy. now apply in_map.
  - destruct (delete_one flt c) as [n c'] eqn:Hdel. simpl in *.
    rewrite Hfx. now apply IH.
Qed.

Lemma delete_one_incl (flt : D -> bool) (c : list D) (d : D) :
  In d (snd (delete_one flt c)) -> In d c.
Proof.
  induction c as [|x c IH]; simpl; [tauto|].
  destruct (flt x); simpl; [tauto|].
  destruct (delete_one flt c). simpl in *. intros [->|H]; auto.
Qed.

Lemma delete_one_NoDup {K : Type} (key : D -> K) (flt : D -> bool)
    (c : list D) :
  NoDup (map key c) -> NoDup (map key (snd (delete_one flt c))).
Proof.
  induction c as [|x c IH]; simpl; intros Hnd; [constructor|].
  inversion Hnd as [|? ? Hx Hc]; subst.
  destruct (flt x); simpl; [assumption|].
  destruct (delete_one flt c) as [n c'] eqn:Hdel. simpl in *.
  constructor; [|now apply IH].
  intros Hin. apply Hx. apply in_map_iff in Hin.
  destruct Hin as (y & Hy & Hin). rewrite <- Hy. apply in_map.
  apply (delete_one_incl flt c y). now rewrite Hdel.
Qed.

(** A key no document carries can be inserted without clash. *)
Lemma insert_one_NoDup {K : Type} (key : D -> K) (flt : D -> bool)
    (d : D) (c : list D) :
  (forall x, key x = key d -> flt x = true) ->
  find_one flt c = None ->
  NoDup (map key c) -> NoDup (map key (insert_one d c)).
Proof.
  intros Hflt Hnone Hnd. unfold insert_one. rewrite map_app. simpl.
  apply NoDup_app; [assumption | repeat constructor; simpl; tauto |].
  intros k Hin [<-|[]]. apply in_map_iff in Hin.
  destruct Hin as (x & Hx & Hin).
  unfold find_one in Hnone.
  apply (find_none flt c Hnone) in Hin. rewrite (Hflt x Hx) in Hin.
  discriminate.
Qed.
End MoreCollectionFacts.

Lemma matched_when_found (uid : string) (upd : UserDoc -> UserDoc)
    (c : list UserDoc) (d : UserDoc) (b : bool) :
  find_one (by_user_id uid) c = Some d ->
  (fst (update_one (by_user_id uid) upd c) =? 0) = b -> b = false.
Proof.
  intros Hd <-. rewrite update_one_count, Hd. reflexivity.
Qed.

Lemma deleted_when_found (uid : string) (c : list UserDoc) (d : UserDoc)
    (b : bool) :
  find_one (by_user_id uid) c = Some d ->
  (fst (delete_one (by_user_id uid) c) =? 1) = b -> b = true.
Proof.
  intros Hd <-. rewrite delete_one_count, Hd. reflexivity.
Qed.

(** Closes the branches in which a write on a document just found reports
    no match. *)
Ltac found :=
  match goal with
  | Hd : find_one (by_user_id ?u) ?c = Some ?d,
    Hm : (fst (update_one (by_user_id ?u) ?upd ?c) =? 0) = true |- _ =>
      discriminate (matched_when_found u upd c d true Hd Hm)
  | Hd : find_one (by_user_id ?u) ?c = Some ?d,
    Hm : (fst (delete_one (by_user_id ?u) ?c) =? 1) = false |- _ =>
      discriminate (deleted_when_found u c d false Hd Hm)
  end.

Section RunEquations.
Context {J : JwtLib} {E : ErrorCatalog}.
Variable env : Env.
Hypothesis Hcalm : calm env.
Hypothesis Hrel : reliable env.

(** Follows the code with the store answering and nobody else writing. *)
Local Ltac walk :=
  repeat (repeat rewrite Hcalm; repeat rewrite Hrel; cbn; try branch).

Lemma check_password_run (w : World) (uid pw : string) :
  check_password uid pw env w =
  (Ret (if password_ok uid pw (conn w) then Pair 200 "ok"
        else tuple error_authorization_fail),
   later w (conn w) 0 1).
Proof.
  unfold password_ok. unfold_services. cbn. walk; reflexivity.
Qed.

Lemma login_run (w : World) (uid pw term : string) :
  fst error_authorization_fail <> 200 ->
  login uid pw term env w =
  if password_ok uid pw (conn w) then
    match jwt_lib_key_error uid with
    | Some msg => (Ret (Triple 530 msg ""), later w (conn w) 1 1)
    | None =>
        let tok := jwt_lib_encode (claims uid term (time env (ticks w))) uid in
        (Ret (Triple 200 "ok" tok),
         later w (with_user (snd (update_one (by_user_id uid)
                                    (set_token_terminal tok term)
                                    (user (conn w)))) (conn w)) 1 2)
    end
  else
    (Ret (Triple (fst error_authorization_fail)
                 (snd error_authorization_fail) ""),
     later w (conn w) 0 1).
Proof.
  intros Hcode. apply Z.eqb_neq in Hcode.
  unfold password_ok. unfold_services. cbn. walk;
    try reflexivity; try found; congruence.
Qed.

Lemma register_run (w : World) (uid pw : string) :
  register uid pw env w =
  if has_user uid (conn w)
  then (Ret (tuple (error_exist_user_id uid)), later w (conn w) 0 1)
  else
    match jwt_lib_key_error uid with
    | Some msg => (Raise (InvalidKeyError msg), later w (conn w) 2 1)
    | None =>
        let terminal := "terminal_" ++ str_time (time env (ticks w)) in
        let token :=
          jwt_lib_encode (claims uid terminal (time env (S (ticks w)))) uid in
        (Ret (Pair 200 "ok"),
         later w (with_user
                    (insert_one {| u_user_id := uid; u_password := Some pw;
                                   u_balance := 0; u_token := Some token;
                                   u_terminal := Some terminal |}
                                (user (conn w))) (conn w)) 2 2)
    end.
Proof.
  unfold has_user. rewrite find_one_existsb.
  unfold_services. cbn. walk; reflexivity.
Qed.

Lemma unregister_run (w : World) (uid pw : string) :
  fst error_authorization_fail <> 200 ->
  unregister uid pw env w =
  if password_ok uid pw (conn w) then
    (Ret (Pair 200 "ok"),
     later w (with_user (snd (delete_one (by_user_id uid) (user (conn w))))
                (conn w)) 0 2)
  else (Ret (tuple error_authorization_fail), later w (conn w) 0 1).
Proof.
  intros Hcode. apply Z.eqb_neq in Hcode.
  unfold password_ok. unfold_services. cbn. walk;
    try reflexivity; try found; congruence.
Qed.

Lemma change_password_run (w : World) (uid old new : string) :
  fst error_authorization_fail <> 200 ->
  change_password uid old new env w =
  if password_ok uid old (conn w) then
    match jwt_lib_key_error uid with
    | Some msg => (Ret (Pair 530 msg), later w (conn w) 2 1)
    | None =>
        let terminal := "terminal_" ++ str_time (time env (ticks w)) in
        let token :=
          jwt_lib_encode (claims uid terminal (time env (S (ticks w)))) uid in
        (Ret (Pair 200 "ok"),
         later w (with_user
                    (snd (update_one (by_user_id uid)
                            (set_password_token_terminal new token terminal)
                            (user (conn w)))) (conn w)) 2 2)
    end
  else (Ret (tuple error_authorization_fail), later w (conn w) 0 1).
Proof.
  intros Hcode. apply Z.eqb_neq in Hcode.
  unfold password_ok. unfold_services. cbn. walk;
    try reflexivity; congruence.
Qed.

Lemma add_book_run (w : World) (uid sid bid info : string) (n : Z) :
  add_book uid sid bid info n env w =
  if negb (has_user uid (conn w))
  then (Ret (tuple (error_non_exist_user_id uid)), later w (conn w) 0 1)
  else if negb (has_store sid (conn w))
  then (Ret (tuple (error_non_exist_store_id sid)), later w (conn w) 0 2)
  else if has_book sid bid (conn w)
  then (Ret (tuple (error_exist_book_id bid)), later w (conn w) 0 3)
  else if negb (int64 n)
  then (Ret (Pair 530 "MongoDB can only handle up to 8-byte ints"),
        later w (conn w) 0 3)
  else
    (Ret (Pair 200 "ok"),
     later w (with_store
                (insert_one {| b_store_id := sid; b_book_id := bid;
                               b_book_info := info; b_stock_level := n |}
                            (store (conn w))) (conn w)) 0 4).
Proof.
  unfold has_user, has_store, has_book. rewrite !find_one_existsb.
  unfold_services. cbn. walk; reflexivity.
Qed.

Lemma add_stock_level_run (w : World) (uid sid bid : string) (delta : Z) :
  add_stock_level uid sid bid delta env w =
  if negb (has_user uid (conn w))
  then (Ret (tuple (error_non_exist_user_id uid)), later w (conn w) 0 1)
  else if negb (has_store sid (conn w))
  then (Ret (tuple (error_non_exist_store_id sid)), later w (conn w) 0 2)
  else match find_one (by_store_book sid bid) (store (conn w)) with
  | None => (Ret (tuple (error_non_exist_book_id bid)), later w (conn w) 0 3)
  | Some d =>
      if negb (int64 delta)
      then (Ret (Pair 530 "MongoDB can only handle up to 8-byte ints"),
            later w (conn w) 0 3)
      else if negb (int64 (b_stock_level d + delta))
      then (Ret (Pair 528 inc_refused), later w (conn w) 0 4)
      else
        (Ret (Pair 200 "ok"),
         later w (with_store
                    (snd (update_one (by_store_book sid bid)
                            (inc_stock_level delta) (store (conn w))))
                    (conn w)) 0 4)
  end.
Proof.
  unfold has_user, has_store. rewrite !find_one_existsb.
  unfold_services. cbn. walk; try reflexivity; congruence.
Qed.

Lemma create_store_run (w : World) (uid sid : string) :
  create_store uid sid env w =
  if negb (has_user uid (conn w))
  then (Ret (tuple (error_non_exist_user_id uid)), later w (conn w) 0 1)
  else if has_store sid (conn w)
  then (Ret (tuple (error_exist_store_id sid)), later w (conn w) 0 2)
  else
    (Ret (Pair 200 "ok"),
     later w (with_user_store
                (insert_one {| us_store_id := sid; us_user_id := uid |}
                            (user_store (conn w))) (conn w)) 0 3).
Proof.
  unfold has_user, has_store. rewrite !find_one_existsb.
  unfold_services. cbn. walk; reflexivity.
Qed.
End RunEquations.

(** ** Accounts: how the calls compose *)

Section AccountCompositions.
Context {J : JwtLib} {E : ErrorCatalog}.

Lemma has_user_insert_one (uid : string) (d : UserDoc) (db : DB) :
  u_user_id d = uid ->
  has_user uid (with_user (insert_one d (user db)) db) = true.
Proof.
  intros <-. unfold has_user, insert_one. cbn. rewrite existsb_app. cbn.
  unfold by_user_id. rewrite String.eqb_refl. now rewrite orb_true_r.
Qed.

Lemma has_user_not_found (uid : string) (db : DB) :
  has_user uid db = false -> find_one (by_user_id uid) (user db) = None.
Proof.
  unfold has_user. rewrite find_one_existsb.
  destruct (find_one _ _); [discriminate | reflexivity].
Qed.

(** X1. Once [register] has answered 200 for a user id, registering that id
    again, with whatever password, answers [error_exist_user_id] and writes
    nothing. *)
Theorem register_twice_refused (env : Env) (w w1 : World)
    (user_id password password' : string) :
  calm env -> reliable env ->
  register user_id password env w = (Ret (Pair 200 "ok"), w1) ->
  register user_id password' env w1 =
  (Ret (tuple (error_exist_user_id user_id)), later w1 (conn w1) 0 1).
Proof.
  intros Hcalm Hrel H1.
  rewrite (register_run env Hcalm Hrel) in H1.
  rewrite (register_run env Hcalm Hrel).
  destruct (has_user user_id (conn w)) eqn:Hu;
    [|destruct (jwt_lib_key_error user_id); [discriminate H1|]];
    apply (f_equal snd) in H1; cbn [snd] in H1; subst w1.
  - cbn. now rewrite Hu.
  - cbn [later conn]. now rewrite has_user_insert_one.
Qed.

(** What a successful [register] has done: the user id was free, the
    library accepts it as key, and the account is the last document. *)
Lemma register_success (env : Env) (w w1 : World)
    (user_id password : string) :
  CatalogLaws E -> calm env -> reliable env ->
  register user_id password env w = (Ret (Pair 200 "ok"), w1) ->
  has_user user_id (conn w) = false /\
  jwt_lib_key_error user_id = None /\
  let terminal := "terminal_" ++ str_time (time env (ticks w)) in
  let token :=
    jwt_lib_encode (claims user_id terminal (time env (S (ticks w))))
      user_id in
  w1 = later w (with_user
                  (insert_one {| u_user_id := user_id;
                                 u_password := Some password;
                                 u_balance := 0; u_token := Some token;
                                 u_terminal := Some terminal |}
                              (user (conn w))) (conn w)) 2 2.
Proof.
  intros HE Hcalm Hrel H.
  rewrite (register_run env Hcalm Hrel) in H.
  destruct (has_user user_id (conn w)).
  { injection H as H _. elim (exist_user_id_code E HE user_id). exact H. }
  destruct (jwt_lib_key_error user_id); [discriminate H|].
  apply (f_equal snd) in H. cbn [snd] in H. now subst w1.
Qed.

(** X2. After [register] has answered 200, [login] with the registered
    password answers 200 with a token stamped at the clock reading of the
    call, and [login] with any other password answers with the
    authorization failure and an empty token. *)
Theorem register_then_login (env : Env) (w w1 : World)
    (user_id password terminal : string) :
  CatalogLaws E -> calm env -> reliable env ->
  register user_id password env w = (Ret (Pair 200 "ok"), w1) ->
  fst (login user_id password terminal env w1) =
    Ret (Triple 200 "ok"
           (jwt_lib_encode (claims user_id terminal (time env (ticks w1)))
              user_id)) /\
  forall other, other <> password ->
    fst (login user_id other terminal env w1) =
    Ret (Triple (fst error_authorization_fail)
                (snd error_authorization_fail) "").
Proof.
  intros HE Hcalm Hrel Hreg.
  pose proof (authorization_fail_code E HE) as Hcode.
  destruct (register_success env w w1 user_id password HE Hcalm Hrel Hreg)
    as (Hfree & Hkey & Hw1).
  cbv zeta in Hw1.
  assert (Hpw : forall p,
    password_ok user_id p (conn w1) = (password =? p)%string).
  { intros p. subst w1. unfold password_ok. cbn [later conn with_user user].
    rewrite find_one_insert_one, (has_user_not_found _ _ Hfree).
    unfold by_user_id. cbn. now rewrite String.eqb_refl. }
  split.
  - rewrite (login_run env Hcalm Hrel _ _ _ _ Hcode), Hpw, String.eqb_refl.
    now rewrite Hkey.
  - intros other Hne.
    rewrite (login_run env Hcalm Hrel _ _ _ _ Hcode), Hpw.
    apply not_eq_sym, String.eqb_neq in Hne. now rewrite Hne.
Qed.

(** With one document per user id, [delete_one] by user id is a filter. *)
Lemma delete_one_by_user_id (uid : string) (c : list UserDoc) :
  NoDup (map u_user_id c) ->
  snd (delete_one (by_user_id uid) c)
  = filter (fun d => negb (by_user_id uid d)) c.
Proof.
  induction c as [|x c IH]; simpl; intros Hnd; [reflexivity|].
  inversion Hnd as [|? ? Hx Hc]; subst.
  destruct (by_user_id uid x) eqn:Hfx; simpl.
  - symmetry. apply forallb_filter_id. apply forallb_forall.
    intros y Hy. unfold by_user_id in *. apply String.eqb_eq in Hfx.
    destruct (u_user_id y =? uid)%string eqn:Hfy; [|reflexivity].
    apply String.eqb_eq in Hfy. elim Hx. rewrite Hfx, <- Hfy.
    now apply in_map.
  - destruct (delete_one (by_user_id uid) c). simpl in *. now rewrite IH.
Qed.

(** X3. With one document per user id, a successful [unregister] removes
    exactly the documents of that user id: the user no longer exists, the
    other accounts are as they were, and any later [login] for the user id
    is refused with the authorization failure. *)
Theorem unregister_removes_account (env : Env) (w w1 : World)
    (user_id password : string) :
  CatalogLaws E -> calm env -> reliable env ->
  NoDup (map u_user_id (user (conn w))) ->
  unregister user_id password env w = (Ret (Pair 200 "ok"), w1) ->
  user (conn w1)
  = filter (fun d => negb (by_user_id user_id d)) (user (conn w)) /\
  has_user user_id (conn w1) = false /\
  forall pw terminal,
    fst (login user_id pw terminal env w1) =
    Ret (Triple (fst error_authorization_fail)
                (snd error_authorization_fail) "").
Proof.
  intros HE Hcalm Hrel Hnd H.
  pose proof (authorization_fail_code E HE) as Hcode.
  rewrite (unregister_run env Hcalm Hrel _ _ _ Hcode) in H.
  destruct (password_ok user_id password (conn w)).
  2:{ injection H as H _. elim Hcode. exact H. }
  apply (f_equal snd) in H. cbn [snd] in H. subst w1.
  cbn [later conn with_user user].
  assert (Hgone : has_user user_id
            (with_user (snd (delete_one (by_user_id user_id) (user (conn w))))
               (conn w)) = false).
  { unfold has_user. cbn [with_user user]. rewrite find_one_existsb.
    rewrite (find_one_delete_one u_user_id user_id); [reflexivity| |exact Hnd].
    intros d. unfold by_user_id. apply String.eqb_eq. }
  split; [now apply delete_one_by_user_id|].
  split; [exact Hgone|].
  intros pw terminal.
  rewrite (login_run env Hcalm Hrel _ _ _ _ Hcode).
  unfold password_ok. cbn [later conn].
  now rewrite (has_user_not_found _ _ Hgone).
Qed.

(** X4. After a successful [change_password], [login] with the new
    password answers 200 and [login] with the old one, when it differs, is
    refused with the authorization failure. *)
Theorem change_password_then_login (env : Env) (w w1 : World)
    (user_id old_password new_password terminal : string) :
  CatalogLaws E -> calm env -> reliable env ->
  change_password user_id old_password new_password env w
  = (Ret (Pair 200 "ok"), w1) ->
  (exists tok,
     fst (login user_id new_password terminal env w1)
     = Ret (Triple 200 "ok" tok)) /\
  (old_password <> new_password ->
   fst (login user_id old_password terminal env w1) =
   Ret (Triple (fst error_authorization_fail)
               (snd error_authorization_fail) "")).
Proof.
  intros HE Hcalm Hrel H.
  pose proof (authorization_fail_code E HE) as Hcode.
  rewrite (change_password_run env Hcalm Hrel _ _ _ _ Hcode) in H.
  unfold password_ok in H.
  destruct (find_one (by_user_id user_id) (user (conn w))) as [d|] eqn:Hd.
  2:{ injection H as H _. elim Hcode. exact H. }
  destruct (u_password d) as [p|].
  2:{ injection H as H _. elim Hcode. exact H. }
  destruct (p =? old_password)%string.
  2:{ injection H as H _. elim Hcode. exact H. }
  destruct (jwt_lib_key_error user_id) eqn:Hkey; [discriminate H|].
  apply (f_equal snd) in H. cbn [snd] in H. subst w1.
  assert (Hpw : forall q,
    password_ok user_id q
      (conn (later w
        (with_user
           (snd (update_one (by_user_id user_id)
                   (set_password_token_terminal new_password
                      (jwt_lib_encode
                         (claims user_id
                            ("terminal_" ++ str_time (time env (ticks w)))
                            (time env (S (ticks w)))) user_id)
                      ("terminal_" ++ str_time (time env (ticks w))))
                   (user (conn w)))) (conn w)) 2 2))
    = (new_password =? q)%string).
  { intros q. unfold password_ok. cbn [later conn with_user user].
    edestruct (update_one_matched (by_user_id user_id)) as [_ Hm];
      [exact Hd|].
    rewrite Hm; [reflexivity|]. apply find_one_holds in Hd. exact Hd. }
  split.
  - eexists.
    rewrite (login_run env Hcalm Hrel _ _ _ _ Hcode), Hpw, String.eqb_refl.
    rewrite Hkey. reflexivity.
  - intros Hne.
    rewrite (login_run env Hcalm Hrel _ _ _ _ Hcode), Hpw.
    apply not_eq_sym, String.eqb_neq in Hne. now rewrite Hne.
Qed.
End AccountCompositions.

(** ** What the calls keep *)

Section Frames.
Context {J : JwtLib} {E : ErrorCatalog}.

(** X5. With no other writer, every answer of [login] is a 3-tuple, store
    errors included; the 2-tuple of the zero-row branch needs a concurrent
    deletion. *)
Theorem login_answers_with_triple (env : Env) (w : World)
    (user_id password terminal : string) :
  CatalogLaws E -> calm env ->
  exists code message token,
    fst (login user_id password terminal env w)
    = Ret (Triple code message token).
Proof.
  intros HE Hcalm.
  pose proof (authorization_fail_code E HE) as Hcode.
  apply Z.eqb_neq in Hcode.
  unfold_services. cbn.
  repeat (repeat rewrite Hcalm; branch); repeat rewrite Hcalm; cbn;
    try (now eauto); try found; congruence.
Qed.

(** X6. Every call writes to one collection at most: the account calls to
    [user], [create_store] to [user_store], [add_book] and
    [add_stock_level] to [store], [ship_order] to [order_history], and
    [check_token] and [check_password] to none.  In particular
    [unregister] leaves the shops and listings of the deleted user in
    place. *)
Theorem calls_write_one_collection (env : Env) (c : command) (w : World) :
  calm env ->
  same_except (written_by c) (conn w) (conn (snd (exec c env w))).
Proof.
  intros Hcalm. unfold same_except.
  destruct c; unfold_services; unfold py_sub; cbn;
    repeat (repeat rewrite Hcalm; branch); repeat rewrite Hcalm; cbn;
    repeat split; auto.
Qed.

(** X7. Apart from [register], [unregister] and [change_password], no call
    changes which accounts exist, their passwords or their balances. *)
Theorem accounts_kept (env : Env) (c : command) (w : World) :
  calm env -> keeps_accounts c ->
  credentials (conn (snd (exec c env w))) = credentials (conn w).
Proof.
  intros Hcalm Hc. unfold credentials.
  destruct c; cbn in Hc; try contradiction;
    unfold_services; unfold py_sub; cbn;
    repeat (repeat rewrite Hcalm; branch); repeat rewrite Hcalm; cbn;
    try reflexivity;
    now apply map_update_one.
Qed.

Lemma order_step_refl (o : OrderDoc) : order_step o o.
Proof. unfold order_step. auto. Qed.

Lemma order_step_trans (a b c : OrderDoc) :
  order_step a b -> order_step b c -> order_step a c.
Proof.
  unfold order_step.
  intros (H1 & H2 & H3 & H4) (K1 & K2 & K3 & K4).
  repeat split; try congruence.
  destruct H4 as [H4 | [H4 H4']], K4 as [K4 | [K4 K4']].
  - left. congruence.
  - right. split; congruence.
  - right. split; congruence.
  - rewrite H4' in K4. discriminate.
Qed.

Lemma Forall2_order_step_refl (l : list OrderDoc) : Forall2 order_step l l.
Proof. induction l; constructor; auto using order_step_refl. Qed.

Lemma Forall2_order_step_trans (l1 l2 l3 : list OrderDoc) :
  Forall2 order_step l1 l2 -> Forall2 order_step l2 l3 ->
  Forall2 order_step l1 l3.
Proof.
  intros H. revert l3. induction H as [|a b l1 l2 Hab _ IH]; intros l3 H23.
  - inversion H23. constructor.
  - inversion H23 as [|? c ? l3' Hbc Hrest]; subst.
    constructor; [eapply order_step_trans; eauto | now apply IH].
Qed.

Lemma ship_update_steps (oid : string) (c : list OrderDoc) (d : OrderDoc) :
  find_one (by_order_id oid) c = Some d ->
  o_status d = "paid" ->
  Forall2 order_step c
    (snd (update_one (by_order_id oid) (set_status "shipped") c)).
Proof.
  unfold find_one. induction c as [|x c IH]; simpl; [discriminate|].
  destruct (by_order_id oid x) eqn:Hx.
  - intros [= ->] Hpaid. simpl. constructor.
    + unfold order_step. cbn. repeat split; try reflexivity.
      right. split; [exact Hpaid | reflexivity].
    + apply Forall2_order_step_refl.
  - intros Hd Hpaid. specialize (IH Hd Hpaid).
    destruct (update_one _ _ c). simpl in *.
    constructor; [apply order_step_refl | exact IH].
Qed.

Lemma exec_steps_orders (env : Env) (c : command) (w : World) :
  calm env ->
  Forall2 order_step (order_history (conn w))
    (order_history (conn (snd (exec c env w)))).
Proof.
  intros Hcalm.
  destruct c; unfold_services; unfold py_sub; cbn;
    repeat (repeat rewrite Hcalm; branch); repeat rewrite Hcalm; cbn;
    try apply Forall2_order_step_refl.
  eapply ship_update_steps; [eassumption|].
  now apply String.eqb_eq.
Qed.

(** X8. Over any sequence of calls the orders only move forward: no order
    is added or removed, buyer and shop of an order stay, and a status is
    either kept or has gone from [paid] to [shipped]; a shipped order is
    never paid again. *)
Theorem orders_move_forward (env : Env) (cs : list command) (w : World) :
  calm env ->
  Forall2 order_step (order_history (conn w))
    (order_history (conn (run cs env w))).
Proof.
  intros Hcalm. revert w.
  induction cs as [|c cs IH]; intros w; simpl.
  - apply Forall2_order_step_refl.
  - eapply Forall2_order_step_trans; [|apply IH].
    now apply exec_steps_orders.
Qed.

Lemma exec_keeps_unique_keys (env : Env) (c : command) (w : World) :
  calm env ->
  unique_keys (conn w) -> unique_keys (conn (snd (exec c env w))).
Proof.
  intros Hcalm (Hu & Hs & Hb & Ho). unfold unique_keys.
  destruct c; unfold_services; unfold py_sub; cbn;
    repeat (repeat rewrite Hcalm; branch); repeat rewrite Hcalm; cbn;
    repeat split; try assumption;
    try (rewrite map_update_one by reflexivity; assumption);
    try (apply delete_one_NoDup; assumption).
  - eapply insert_one_NoDup; [|eassumption|assumption].
    intros x Hx. cbn in Hx. unfold by_user_id. rewrite Hx.
    apply String.eqb_refl.
  - eapply insert_one_NoDup; [|eassumption|assumption].
    intros x [= H1 H2]. unfold by_store_book.
    now rewrite H1, H2, !String.eqb_refl.
  - eapply insert_one_NoDup; [|eassumption|assumption].
    intros x Hx. cbn in Hx. unfold by_store_id. rewrite Hx.
    apply String.eqb_refl.
Qed.

(** X9. The existence checks keep the keys unique: if no two users share a
    user id, no two shops a store id, no two listings a (store id, book id)
    pair and no two orders an order id, the same holds after any sequence
    of calls. *)
Theorem keys_stay_unique (env : Env) (cs : list command) (w : World) :
  calm env ->
  unique_keys (conn w) -> unique_keys (conn (run cs env w)).
Proof.
  intros Hcalm. revert w.
  induction cs as [|c cs IH]; intros w Hw; simpl; [exact Hw|].
  apply IH. now apply exec_keeps_unique_keys.
Qed.
End Frames.

(** ** Shops and listings *)

Section CatalogProperties.
Context {J : JwtLib} {E : ErrorCatalog}.

Lemma has_book_found (sid bid : string) (db : DB) :
  has_book sid bid db =
  match find_one (by_store_book sid bid) (store db) with
  | Some _ => true
  | None => false
  end.
Proof. unfold has_book. apply find_one_existsb. Qed.

Lemma by_store_book_inc (sid bid : string) (delta : Z) (d : BookDoc) :
  by_store_book sid bid (inc_stock_level delta d) = by_store_book sid bid d.
Proof. reflexivity. Qed.

(** An update by one filter does not change what another filter finds when
    the two never hold of the same document. *)
Lemma find_one_update_one_other {D : Type} (f g : D -> bool) (upd : D -> D)
    (c : list D) :
  (forall d, g (upd d) = g d) ->
  (forall d, f d = true -> g d = false) ->
  find_one g (snd (update_one f upd c)) = find_one g c.
Proof.
  intros Hg Hfg. unfold find_one.
  induction c as [|x c IH]; simpl; [reflexivity|].
  destruct (f x) eqn:Hfx; simpl.
  - now rewrite Hg, (Hfg x Hfx).
  - destruct (update_one f upd c). simpl in *. now rewrite IH.
Qed.

(** X10. [add_book] reports, in this order, a missing user, a missing shop
    and a duplicate book; then, for a stock level that does not fit the 8
    bytes of the store, the driver's refusal comes back with code 530 and
    nothing is listed; otherwise it answers 200 and appends one listing
    with the given description and stock level, so that the stock of the
    book in that shop is the given one. *)
Theorem add_book_decision (env : Env) (w : World)
    (user_id store_id book_id book_json_str : string) (stock_level : Z) :
  calm env -> reliable env ->
  let db := conn w in
  let out := add_book user_id store_id book_id book_json_str stock_level env w in
  (has_user user_id db = false ->
     out = (Ret (tuple (error_non_exist_user_id user_id)), later w db 0 1)) /\
  (has_user user_id db = true -> has_store store_id db = false ->
     out = (Ret (tuple (error_non_exist_store_id store_id)), later w db 0 2)) /\
  (has_user user_id db = true -> has_store store_id db = true ->
   has_book store_id book_id db = true ->
     out = (Ret (tuple (error_exist_book_id book_id)), later w db 0 3)) /\
  (has_user user_id db = true -> has_store store_id db = true ->
   has_book store_id book_id db = false -> int64 stock_level = false ->
     out = (Ret (Pair 530 "MongoDB can only handle up to 8-byte ints"),
            later w db 0 3)) /\
  (has_user user_id db = true -> has_store store_id db = true ->
   has_book store_id book_id db = false -> int64 stock_level = true ->
     fst out = Ret (Pair 200 "ok") /\
     store (conn (snd out)) =
       (store db ++ [ {| b_store_id := store_id; b_book_id := book_id;
                         b_book_info := book_json_str;
                         b_stock_level := stock_level |} ])%list /\
     stock_of store_id book_id (conn (snd out)) = Some stock_level).
Proof.
  intros Hcalm Hrel db out. subst out db.
  rewrite (add_book_run env Hcalm Hrel).
  repeat split; intros;
    repeat match goal with H : _ = true |- _ => rewrite H; clear H
                         | H : _ = false |- _ => rewrite H end;
    try reflexivity.
  cbn [negb snd later conn with_store store]. unfold stock_of.
  cbn [with_store store]. rewrite find_one_insert_one.
  match goal with H : has_book _ _ _ = false |- _ =>
    rewrite has_book_found in H end.
  destruct (find_one _ _); [discriminate|].
  unfold by_store_book. cbn. now rewrite !String.eqb_refl.
Qed.

(** X11. Once [add_book] has answered 200 for a book in a shop, listing the
    same book in the same shop again, by whatever existing user and with
    whatever description and stock, answers [error_exist_book_id], and the
    stock stays what the first call set. *)
Theorem add_book_twice_refused (env : Env) (w w1 : World)
    (user_id user_id' store_id book_id info info' : string) (n n' : Z) :
  CatalogLaws E -> calm env -> reliable env ->
  add_book user_id store_id book_id info n env w = (Ret (Pair 200 "ok"), w1) ->
  has_user user_id' (conn w) = true ->
  add_book user_id' store_id book_id info' n' env w1 =
    (Ret (tuple (error_exist_book_id book_id)), later w1 (conn w1) 0 3) /\
  stock_of store_id book_id (conn w1) = Some n.
Proof.
  intros HE Hcalm Hrel H Hu'.
  rewrite (add_book_run env Hcalm Hrel) in H.
  destruct (has_user user_id (conn w)); cbn [negb] in H.
  2:{ injection H as H _. now elim (non_exist_user_id_code E HE _ H). }
  destruct (has_store store_id (conn w)) eqn:Hs; cbn [negb] in H.
  2:{ injection H as H _. now elim (non_exist_store_id_code E HE _ H). }
  destruct (has_book store_id book_id (conn w)) eqn:Hb.
  { injection H as H _. now elim (exist_book_id_code E HE _ H). }
  destruct (int64 n); cbn [negb] in H; [|discriminate H].
  apply (f_equal snd) in H. cbn [snd] in H. subst w1.
  rewrite has_book_found in Hb.
  destruct (find_one (by_store_book store_id book_id) (store (conn w)))
    eqn:Hfind; [discriminate|].
  assert (Hfound :
    find_one (by_store_book store_id book_id)
      (insert_one {| b_store_id := store_id; b_book_id := book_id;
                     b_book_info := info; b_stock_level := n |}
                  (store (conn w)))
    = Some {| b_store_id := store_id; b_book_id := book_id;
              b_book_info := info; b_stock_level := n |}).
  { rewrite find_one_insert_one, Hfind.
    unfold by_store_book. cbn. now rewrite !String.eqb_refl. }
  split.
  - rewrite (add_book_run env Hcalm Hrel).
    unfold has_user, has_store, has_book in *.
    cbn [later conn with_store user user_store store].
    rewrite Hu', Hs. cbn [negb].
    now rewrite find_one_existsb, Hfound.
  - unfold stock_of. cbn [later conn with_store store].
    now rewrite Hfound.
Qed.

(** What a successful [add_stock_level] has met and done. *)
Lemma add_stock_level_success (env : Env) (w w1 : World)
    (user_id store_id book_id : string) (delta : Z) :
  CatalogLaws E -> calm env -> reliable env ->
  add_stock_level user_id store_id book_id delta env w
  = (Ret (Pair 200 "ok"), w1) ->
  exists d,
    has_user user_id (conn w) = true /\
    has_store store_id (conn w) = true /\
    find_one (by_store_book store_id book_id) (store (conn w)) = Some d /\
    int64 delta = true /\
    int64 (b_stock_level d + delta) = true /\
    w1 = later w (with_store
                    (snd (update_one (by_store_book store_id book_id)
                            (inc_stock_level delta) (store (conn w))))
                    (conn w)) 0 4.
Proof.
  intros HE Hcalm Hrel H.
  rewrite (add_stock_level_run env Hcalm Hrel) in H.
  destruct (has_user user_id (conn w)); cbn [negb] in H.
  2:{ injection H as H _. now elim (non_exist_user_id_code E HE _ H). }
  destruct (has_store store_id (conn w)); cbn [negb] in H.
  2:{ injection H as H _. now elim (non_exist_store_id_code E HE _ H). }
  destruct (find_one (by_store_book store_id book_id) (store (conn w)))
    as [d|] eqn:Hd.
  2:{ injection H as H _. now elim (non_exist_book_id_code E HE _ H). }
  destruct (int64 delta) eqn:Hdelta; cbn [negb] in H; [|discriminate H].
  destruct (int64 (b_stock_level d + delta)) eqn:Hfit; cbn [negb] in H;
    [|discriminate H].
  apply (f_equal snd) in H. cbn [snd] in H.
  exists d. repeat split; try reflexivity; try assumption. now symmetry.
Qed.

(** X12. A successful [add_stock_level] adds the delta, negative or not, to
    the stock of the listing found for the shop and the book, and leaves
    the stock of every other (shop, book) pair as it was. *)
Theorem add_stock_level_adds (env : Env) (w w1 : World)
    (user_id store_id book_id : string) (delta : Z) :
  CatalogLaws E -> calm env -> reliable env ->
  add_stock_level user_id store_id book_id delta env w
  = (Ret (Pair 200 "ok"), w1) ->
  (exists old, stock_of store_id book_id (conn w) = Some old /\
               stock_of store_id book_id (conn w1) = Some (old + delta)) /\
  (forall sid bid, (sid, bid) <> (store_id, book_id) ->
     stock_of sid bid (conn w1) = stock_of sid bid (conn w)).
Proof.
  intros HE Hcalm Hrel H.
  destruct (add_stock_level_success env w w1 user_id store_id book_id delta
              HE Hcalm Hrel H) as (d & _ & _ & Hd & _ & _ & ->).
  unfold stock_of. cbn [later conn with_store store]. rewrite Hd.
  split.
  - exists (b_stock_level d). split; [reflexivity|].
    edestruct (update_one_matched (by_store_book store_id book_id))
      as [_ Hm]; [exact Hd|].
    rewrite Hm; [reflexivity|]. apply find_one_holds in Hd. exact Hd.
  - intros sid bid Hne. f_equal.
    apply find_one_update_one_other; [reflexivity|].
    intros x Hx. unfold by_store_book in *.
    apply andb_true_iff in Hx. destruct Hx as [H1 H2].
    apply String.eqb_eq in H1, H2.
    destruct (b_store_id x =? sid)%string eqn:K1; [|reflexivity].
    destruct (b_book_id x =? bid)%string eqn:K2; [|reflexivity].
    apply String.eqb_eq in K1, K2. elim Hne. congruence.
Qed.

Lemma update_one_inc_twice (sid bid : string) (d1 d2 : Z) (c : list BookDoc) :
  snd (update_one (by_store_book sid bid) (inc_stock_level d2)
         (snd (update_one (by_store_book sid bid) (inc_stock_level d1) c)))
  = snd (update_one (by_store_book sid bid) (inc_stock_level (d1 + d2)) c).
Proof.
  induction c as [|x c IH]; simpl; [reflexivity|].
  destruct (by_store_book sid bid x) eqn:Hx; simpl.
  - rewrite by_store_book_inc, Hx. simpl. unfold inc_stock_level. cbn.
    do 2 f_equal. lia.
  - destruct (update_one _ (inc_stock_level d1) c) as [n1 c1].
    destruct (update_one _ (inc_stock_level (d1 + d2)) c) as [n2 c2].
    simpl in *. rewrite Hx.
    destruct (update_one _ (inc_stock_level d2) c1). simpl in *.
    now rewrite IH.
Qed.

(** X13. Two restocks in a row that both answered 200 leave the
    collections as one restock by the sum of the deltas does, whoever the
    (existing) callers are, when the sum fits the 8 bytes of the store; the
    single restock then answers 200 as well.  (Without the two successes
    the sums differ: a delta the driver refuses is not applied, the next
    one is.) *)
Theorem restocks_add_up (env : Env) (w w1 w2 : World)
    (u1 u2 u3 store_id book_id : string) (d1 d2 : Z) :
  CatalogLaws E -> calm env -> reliable env ->
  add_stock_level u1 store_id book_id d1 env w = (Ret (Pair 200 "ok"), w1) ->
  add_stock_level u2 store_id book_id d2 env w1 = (Ret (Pair 200 "ok"), w2) ->
  has_user u3 (conn w) = true ->
  int64 (d1 + d2) = true ->
  fst (add_stock_level u3 store_id book_id (d1 + d2) env w)
  = Ret (Pair 200 "ok") /\
  conn (snd (add_stock_level u3 store_id book_id (d1 + d2) env w)) = conn w2.
Proof.
  intros HE Hcalm Hrel H1 H2 Hu3 Hsum.
  destruct (add_stock_level_success env w w1 u1 store_id book_id d1
              HE Hcalm Hrel H1) as (d & _ & Hs & Hd & _ & Hfit1 & Hw1).
  destruct (add_stock_level_success env w1 w2 u2 store_id book_id d2
              HE Hcalm Hrel H2) as (d' & _ & _ & Hd' & _ & Hfit2 & Hw2).
  subst w1. cbn [later conn with_store store] in Hd', Hw2.
  edestruct (update_one_matched (by_store_book store_id book_id)
               (inc_stock_level d1)) as [_ Hm]; [exact Hd|].
  rewrite Hm in Hd' by (apply find_one_holds in Hd; exact Hd).
  injection Hd' as <-. cbn [inc_stock_level b_stock_level] in Hfit2.
  rewrite (add_stock_level_run env Hcalm Hrel), Hu3, Hs, Hd, Hsum.
  cbn [negb].
  replace (b_stock_level d + (d1 + d2)) with (b_stock_level d + d1 + d2)
    by lia.
  rewrite Hfit2. cbn [negb fst snd]. split; [reflexivity|].
  subst w2. cbn [later conn]. unfold with_store. cbn.
  f_equal. symmetry. apply update_one_inc_twice.
Qed.

(** X14. [add_book] and [add_stock_level] look at the user id only to see
    that it exists: any existing user gets the same answer and the same
    effect on any shop, the owner or not. *)
Theorem listings_ignore_ownership (env : Env) (w : World)
    (u1 u2 store_id book_id info : string) (stock_level delta : Z) :
  calm env ->
  has_user u1 (conn w) = true -> has_user u2 (conn w) = true ->
  add_book u1 store_id book_id info stock_level env w
  = add_book u2 store_id book_id info stock_level env w /\
  add_stock_level u1 store_id book_id delta env w
  = add_stock_level u2 store_id book_id delta env w.
Proof.
  intros Hcalm Hu1 Hu2.
  apply has_user_found in Hu1, Hu2.
  destruct Hu1 as [d1 Hu1], Hu2 as [d2 Hu2].
  split; unfold_services; cbn; rewrite !Hcalm, Hu1, Hu2;
    destruct (fault env (calls w)); reflexivity.
Qed.

(** X15. [create_store] reports a missing user, then a shop id already
    taken; otherwise it answers 200 and records the caller as the owner.
    Once a shop id is taken, creating it again, by whatever existing user,
    answers [error_exist_store_id] and the owner stays. *)
Theorem create_store_decision (env : Env) (w : World)
    (user_id store_id : string) :
  calm env -> reliable env ->
  let db := conn w in
  let out := create_store user_id store_id env w in
  (has_user user_id db = false ->
     out = (Ret (tuple (error_non_exist_user_id user_id)), later w db 0 1)) /\
  (has_user user_id db = true -> has_store store_id db = true ->
     out = (Ret (tuple (error_exist_store_id store_id)), later w db 0 2)) /\
  (has_user user_id db = true -> has_store store_id db = false ->
     fst out = Ret (Pair 200 "ok") /\
     owner_of store_id (conn (snd out)) = Some user_id /\
     forall other, has_user other db = true ->
       create_store other store_id env (snd out) =
       (Ret (tuple (error_exist_store_id store_id)),
        later (snd out) (conn (snd out)) 0 2)).
Proof.
  intros Hcalm Hrel db out. subst out db.
  rewrite (create_store_run env Hcalm Hrel).
  split; [intros ->; reflexivity|].
  split; [intros -> ->; reflexivity|].
  intros Hu Hs. rewrite Hu, Hs. cbn [negb fst snd].
  split; [reflexivity|].
  assert (Hfree : find_one (by_store_id store_id) (user_store (conn w)) = None).
  { unfold has_store in Hs. rewrite find_one_existsb in Hs.
    destruct (find_one _ _); [discriminate | reflexivity]. }
  split.
  - unfold owner_of. cbn [later conn with_user_store user_store].
    rewrite find_one_insert_one, Hfree. unfold by_store_id. cbn.
    now rewrite String.eqb_refl.
  - intros other Ho. rewrite (create_store_run env Hcalm Hrel).
    unfold has_user, has_store in *.
    cbn [later conn with_user_store user user_store].
    rewrite Ho. cbn [negb]. rewrite find_one_existsb, find_one_insert_one, Hfree.
    unfold by_store_id. cbn. now rewrite String.eqb_refl.
Qed.
End CatalogProperties.

(** ** Stored tokens *)

Section StoredTokens.
Context {J : JwtLib} {E : ErrorCatalog}.







(** X24. A user id that is free and that the token library accepts as key
    gets, on [register], an account with the given password and balance 0,
    the other accounts being kept; the token stored with it is accepted by
    [check_token] for as long as the clock is within 3600 seconds of its
    stamp.  (For a user id the library refuses, [register] raises.) *)
Theorem register_opens_account (env : Env) (w : World)
    (user_id password : string) :
  JwtLaws J -> calm env -> reliable env ->
  has_user user_id (conn w) = false ->
  jwt_lib_key_error user_id = None ->
  let w1 := snd (register user_id password env w) in
  fst (register user_id password env w) = Ret (Pair 200 "ok") /\
  credentials (conn w1)
  = (credentials (conn w) ++ [(user_id, Some password, 0)])%list /\
  exists tok,
    stored_token user_id (conn w1) = Some tok /\
    (time env (ticks w1) - time env (S (ticks w)) <= token_lifetime ->
     fst (check_token user_id tok env w1) = Ret (Pair 200 "ok")).
Proof.
  intros HJ Hcalm Hrel Hfree Hkey w1. subst w1.
  rewrite (register_run env Hcalm Hrel), Hfree, Hkey. cbn [fst snd].
  split; [reflexivity|].
  split.
  { unfold credentials, insert_one. cbn. now rewrite map_app. }
  set (terminal := ("terminal_" ++ str_time (time env (ticks w)))%string).
  set (tok := jwt_lib_encode
                (claims user_id terminal (time env (S (ticks w)))) user_id).
  set (doc := {| u_user_id := user_id; u_password := Some password;
                 u_balance := 0; u_token := Some tok;
                 u_terminal := Some terminal |}).
  assert (Hfind :
    find_one (by_user_id user_id) (insert_one doc (user (conn w)))
    = Some doc).
  { rewrite find_one_insert_one, (has_user_not_found _ _ Hfree).
    unfold by_user_id. cbn. now rewrite String.eqb_refl. }
  exists tok. split.
  { unfold stored_token. cbn [later conn with_user user]. now rewrite Hfind. }
  intros Hage.
  unfold check_token, bind, user_find_one, store_call.
  rewrite Hrel, Hcalm. cbn [later conn with_user user fst snd calls ticks].
  rewrite Hfind. cbn [get_token doc u_token].
  match goal with |- context [__check_token user_id tok tok env ?w2] =>
    assert (Hok : __check_token user_id tok tok env w2 = (Ret true, ticked w2))
  end.
  { apply check_token_true_iff. split; [reflexivity|].
    exists (claims user_id terminal (time env (S (ticks w)))),
           (JNum (time env (S (ticks w)))),
           (time env (2 + ticks w) - time env (S (ticks w))).
    repeat split; try discriminate.
    - now apply (decode_encode J HJ).
    - exact Hage. }
  rewrite Hok. reflexivity.
Qed.
End StoredTokens.

(** ** The book catalogue *)

Section SearchProperties.
Context {E : ErrorCatalog} {R : MongoRegex}.

Ltac unfold_search :=
  unfold search_book, books_find, store_find, try_except, bind, ret, lift,
    store_call, is_PyMongoError, is_Exception.

(** A query fails only as the store does. *)
Lemma run_query_raises (q : Query) (books : list BookInfoDoc) (e : exn) :
  run_query q books = Raise e -> exists msg, e = PyMongoError msg.
Proof.
  unfold run_query, regex_criterion.
  destruct (q_title q) as [p|]; [destruct (regex_compile p)|];
    destruct (q_content q) as [p'|]; try destruct (regex_compile p');
    destruct (q_tags q) as [p''|]; try destruct (regex_compile p'');
    intros H; try discriminate; injection H as <-; eauto.
Qed.

(** X16. [search_book] always answers (it never raises, whatever the
    store and the patterns do) and writes nothing. *)
Theorem search_book_answers_and_reads_only (env : Env) (w : World)
    (books : list BookInfoDoc) (title content tag store_id : string) :
  calm env ->
  (exists answer,
     fst (search_book books title content tag store_id env w) = Ret answer) /\
  conn (snd (search_book books title content tag store_id env w)) = conn w.
Proof.
  intros Hcalm. unfold_search.
  destruct (truthy store_id); cbn; rewrite ?Hcalm.
  - destruct (fault env (calls w)); cbn; [eauto|].
    destruct (Nat.eqb _ 0); cbn; [eauto|]. rewrite ?Hcalm.
    destruct (fault env (S (calls w))); cbn; [eauto|].
    destruct (run_query _ books) as [[|d l]|e]; try destruct e; cbn; eauto.
  - destruct (fault env (calls w)); cbn; [eauto|].
    destruct (run_query _ books) as [[|d l]|e]; try destruct e; cbn; eauto.
Qed.

(** The answer of [search_book] with the store answering and nobody else
    writing. *)
Lemma search_book_reply (env : Env) (w : World)
    (books : list BookInfoDoc) (title content tag store_id : string) :
  calm env -> reliable env ->
  fst (search_book books title content tag store_id env w) =
  let ids :=
    if truthy store_id
    then Some (map b_book_id (listings_of store_id (conn w))) else None in
  if truthy store_id &&
     (List.length (listings_of store_id (conn w)) =? 0)%nat
  then Ret (tuple (error_non_exist_store_id store_id))
  else
    match run_query
            {| q_title := if truthy title then Some title else None;
               q_content := if truthy content then Some content else None;
               q_tags := if truthy tag then Some tag else None;
               q_id := ids |} books with
    | Raise e => Ret (Pair 528 (str_exn e))
    | Ret [] => Ret (Pair 529 "No matching books found.")
    | Ret (_ :: _) => Ret (Pair 200 "ok")
    end.
Proof.
  intros Hcalm Hrel. unfold_search.
  destruct (truthy store_id); cbn; rewrite ?Hcalm, ?Hrel; cbn.
  - destruct (Nat.eqb _ 0); cbn; [reflexivity|]. rewrite ?Hcalm, ?Hrel. cbn.
    destruct (run_query _ books) as [[|d l]|e] eqn:Hq; cbn; try reflexivity.
    destruct (run_query_raises _ _ _ Hq) as [msg ->]. reflexivity.
  - destruct (run_query _ books) as [[|d l]|e] eqn:Hq; cbn; try reflexivity.
    destruct (run_query_raises _ _ _ Hq) as [msg ->]. reflexivity.
Qed.

(** X17. [search_book] judges a shop by its listings: for a store id that
    is not empty and has no listing it answers [error_non_exist_store_id],
    whatever the other criteria and the catalogue are, also when the shop
    has been created. *)
Theorem search_book_needs_listing (env : Env) (w : World)
    (books : list BookInfoDoc) (title content tag store_id : string) :
  calm env -> reliable env ->
  store_id <> "" ->
  listings_of store_id (conn w) = [] ->
  fst (search_book books title content tag store_id env w)
  = Ret (tuple (error_non_exist_store_id store_id)).
Proof.
  intros Hcalm Hrel Hne Hnone.
  rewrite (search_book_reply env w books _ _ _ _ Hcalm Hrel), Hnone.
  unfold truthy. apply String.eqb_neq in Hne. now rewrite Hne.
Qed.

(** X18. With no criterion at all, [search_book] answers 200 when the
    catalogue has a document and 529 when it has none. *)
Theorem search_book_no_criterion (env : Env) (w : World)
    (books : list BookInfoDoc) :
  calm env -> reliable env ->
  fst (search_book books "" "" "" "" env w) =
  Ret (match books with
       | [] => Pair 529 "No matching books found."
       | _ :: _ => Pair 200 "ok"
       end).
Proof.
  intros Hcalm Hrel.
  rewrite (search_book_reply env w books _ _ _ _ Hcalm Hrel).
  cbn. assert (H : filter (fun _ : BookInfoDoc => true) books = books).
  { induction books as [|d l IH]; simpl; [reflexivity | now rewrite IH]. }
  rewrite H. now destruct books.
Qed.

Lemma regex_criterion_relaxed (a b : string) (field : BookInfoDoc -> cell)
    (m : BookInfoDoc -> bool) :
  relaxed a b ->
  regex_criterion (if truthy a then Some a else None) field = Ret m ->
  exists m',
    regex_criterion (if truthy b then Some b else None) field = Ret m' /\
    forall d, m d = true -> m' d = true.
Proof.
  intros [-> | ->] H.
  - exists m. auto.
  - cbn. eexists. split; [reflexivity | auto].
Qed.

Lemma filter_nonempty_mono {D : Type} (p p' : D -> bool) (l : list D) :
  (forall d, p d = true -> p' d = true) ->
  filter p l <> [] -> filter p' l <> [].
Proof.
  intros Hpp. induction l as [|x l IH]; simpl; [tauto|].
  destruct (p x) eqn:Hx.
  - rewrite (Hpp x Hx). discriminate.
  - intros H. destruct (p' x); [discriminate | auto].
Qed.

(** X19. Dropping criteria never loses a hit: if [search_book] answers 200,
    it still answers 200 when any of title, content, tag and store id is
    replaced by the empty text. *)
Theorem search_book_relaxed (env : Env) (w : World)
    (books : list BookInfoDoc)
    (title content tag store_id title' content' tag' store_id' : string) :
  CatalogLaws E -> calm env -> reliable env ->
  relaxed title title' -> relaxed content content' ->
  relaxed tag tag' -> relaxed store_id store_id' ->
  fst (search_book books title content tag store_id env w)
  = Ret (Pair 200 "ok") ->
  fst (search_book books title' content' tag' store_id' env w)
  = Ret (Pair 200 "ok").
Proof.
  intros HE Hcalm Hrel Ht Hc Hg Hs.
  rewrite !(search_book_reply env w books _ _ _ _ Hcalm Hrel). cbv zeta.
  intros H.
  assert (Hhit : exists d l,
    run_query
      {| q_title := if truthy title then Some title else None;
         q_content := if truthy content then Some content else None;
         q_tags := if truthy tag then Some tag else None;
         q_id := if truthy store_id
                 then Some (map b_book_id (listings_of store_id (conn w)))
                 else None |} books = Ret (d :: l) /\
    (truthy store_id &&
     (List.length (listings_of store_id (conn w)) =? 0)%nat = false)).
  { destruct (truthy store_id &&
              (List.length (listings_of store_id (conn w)) =? 0)%nat).
    - injection H as H _. now elim (non_exist_store_id_code E HE _ H).
    - destruct (run_query _ books) as [[|d l]|e]; try discriminate. eauto. }
  clear H. destruct Hhit as (d & l & Hq & Hstore).
  unfold run_query in Hq. cbn [q_title q_content q_tags q_id] in Hq.
  destruct (regex_criterion (if truthy title then _ else _) bk_title)
    as [m1|] eqn:H1; [|discriminate].
  destruct (regex_criterion (if truthy content then _ else _) bk_content)
    as [m2|] eqn:H2; [|discriminate].
  destruct (regex_criterion (if truthy tag then _ else _) bk_tags)
    as [m3|] eqn:H3; [|discriminate].
  injection Hq as Hq.
  destruct (regex_criterion_relaxed _ _ _ _ Ht H1) as (m1' & K1 & L1).
  destruct (regex_criterion_relaxed _ _ _ _ Hc H2) as (m2' & K2 & L2).
  destruct (regex_criterion_relaxed _ _ _ _ Hg H3) as (m3' & K3 & L3).
  assert (Hstore' : truthy store_id' &&
     (List.length (listings_of store_id' (conn w)) =? 0)%nat = false).
  { destruct Hs as [-> | ->]; [exact Hstore | reflexivity]. }
  rewrite Hstore'. unfold run_query. cbn [q_title q_content q_tags q_id].
  rewrite K1, K2, K3.
  match goal with |- context [filter ?p books] =>
    assert (Hne : filter p books <> []); [|destruct (filter p books)] end.
  { eapply filter_nonempty_mono; [|rewrite Hq; discriminate].
    intros x Hx. cbn beta in Hx.
    apply andb_true_iff in Hx. destruct Hx as [Hx Hid].
    apply andb_true_iff in Hx. destruct Hx as [Hx Hx3].
    apply andb_true_iff in Hx. destruct Hx as [Hx1 Hx2].
    rewrite (L1 _ Hx1), (L2 _ Hx2), (L3 _ Hx3). cbn.
    destruct Hs as [-> | ->]; [exact Hid | reflexivity]. }
  - now elim Hne.
  - reflexivity.
Qed.
End SearchProperties.

Section LoaderProperties.
Variable env : Env.
Hypothesis Hrel : reliable env.

Lemma docs_of_rows_length (rows : list (list cell)) (docs : list BookInfoDoc) :
  docs_of_rows rows = Some docs -> List.length docs = List.length rows.
Proof.
  revert docs. induction rows as [|r rows IH]; simpl; intros docs H.
  - now injection H as <-.
  - destruct (doc_of_row r); [|discriminate].
    destruct (docs_of_rows rows) as [ds|]; [|discriminate].
    injection H as <-. simpl. now rewrite (IH ds).
Qed.

(** The loop appends the documents of the rows, in order. *)
Lemma insert_rows_run (rows : list (list cell)) (docs : list BookInfoDoc)
    (s : Shelf) :
  docs_of_rows rows = Some docs ->
  insert_rows rows env s =
  (inr tt,
   {| books := match docs with
               | [] => books s
               | _ :: _ => Some (contents (books s) ++ docs)%list
               end;
      requests := List.length rows + requests s |}).
Proof.
  revert docs s. induction rows as [|r rows IH]; simpl; intros docs s H.
  - injection H as <-. now destruct s.
  - destruct (doc_of_row r) as [d|]; [|discriminate].
    destruct (docs_of_rows rows) as [ds|] eqn:Hds; [|discriminate].
    injection H as <-.
    unfold l_bind, books_insert_one, shelf_call. rewrite Hrel.
    rewrite (IH ds _ eq_refl). cbn [books requests fst snd].
    f_equal. f_equal.
    + unfold insert_one, contents.
      destruct ds; [reflexivity|]. now rewrite <- app_assoc.
    + lia.
Qed.

(** The loop stops at the first row that lacks a column, with the rows
    before it inserted. *)
Lemma insert_rows_short (pre post : list (list cell)) (bad : list cell)
    (docs : list BookInfoDoc) (s : Shelf) :
  docs_of_rows pre = Some docs ->
  doc_of_row bad = None ->
  insert_rows (pre ++ bad :: post) env s =
  (inl (IndexError "tuple index out of range"),
   {| books := match docs with
               | [] => books s
               | _ :: _ => Some (contents (books s) ++ docs)%list
               end;
      requests := List.length pre + requests s |}).
Proof.
  revert docs s. induction pre as [|r pre IH]; simpl; intros docs s H Hbad.
  - injection H as <-. rewrite Hbad. now destruct s.
  - destruct (doc_of_row r) as [d|]; [|discriminate].
    destruct (docs_of_rows pre) as [ds|] eqn:Hds; [|discriminate].
    injection H as <-.
    unfold l_bind, books_insert_one, shelf_call. rewrite Hrel.
    rewrite (IH ds _ eq_refl Hbad). cbn [books requests fst snd].
    f_equal. f_equal.
    + unfold insert_one, contents.
      destruct ds; [reflexivity|]. now rewrite <- app_assoc.
    + lia.
Qed.

(** The collection after the check and the drop: gone, whatever it held. *)
Lemma load_books_prologue (s : Shelf) :
  exists n,
    l_bind books_listed
      (fun listed => if listed then books_drop else l_ret tt) env s
    = (inr tt, {| books := None; requests := n |}).
Proof.
  unfold l_bind, books_listed, books_drop, shelf_call, l_ret.
  rewrite Hrel. cbn. destruct (books s) eqn:Hb; cbn.
  - rewrite Hrel. cbn. eauto.
  - eexists. reflexivity.
Qed.

(** X20. A load replaces the catalogue: when every row of the chosen
    snapshot has its 17 columns, [load_books] ends normally and the
    [books] collection then holds exactly one document per row, in row
    order, whatever it held before (and does not exist if there is no
    row). *)
Theorem load_books_replaces (s : Shelf) (Use_Large_DB : bool)
    (book_db book_lx_db : option (list (list cell)))
    (rows : list (list cell)) (docs : list BookInfoDoc) :
  (if Use_Large_DB then book_lx_db else book_db) = Some rows ->
  docs_of_rows rows = Some docs ->
  fst (load_books Use_Large_DB book_db book_lx_db env s) = inr tt /\
  books (snd (load_books Use_Large_DB book_db book_lx_db env s))
  = collection_of docs /\
  List.length docs = List.length rows.
Proof.
  intros Htable Hdocs. unfold load_books.
  destruct (load_books_prologue s) as [n Hn].
  unfold l_bind in *.
  destruct (books_listed env s) as [[e|listed] s1].
  { discriminate. }
  destruct ((if listed then books_drop else l_ret tt) env s1) as [[e|[]] s2].
  { discriminate. }
  injection Hn as ->. rewrite Htable.
  rewrite (insert_rows_run rows docs _ Hdocs). cbn.
  split; [reflexivity|]. split; [now destruct docs|].
  now apply docs_of_rows_length.
Qed.

(** X21. A load is not atomic.  When the chosen snapshot has no [book]
    table, [load_books] stops with [OperationalError] after the old
    catalogue has been dropped; when a row lacks a column it stops with
    [IndexError], the old catalogue dropped and only the rows before the
    short one inserted. *)
Theorem load_books_stops_midway (s : Shelf) (Use_Large_DB : bool)
    (book_db book_lx_db : option (list (list cell))) :
  ((if Use_Large_DB then book_lx_db else book_db) = None ->
   fst (load_books Use_Large_DB book_db book_lx_db env s)
   = inl (OperationalError "no such table: book") /\
   books (snd (load_books Use_Large_DB book_db book_lx_db env s)) = None) /\
  (forall pre bad post docs,
   (if Use_Large_DB then book_lx_db else book_db)
   = Some (pre ++ bad :: post)%list ->
   docs_of_rows pre = Some docs ->
   doc_of_row bad = None ->
   fst (load_books Use_Large_DB book_db book_lx_db env s)
   = inl (IndexError "tuple index out of range") /\
   books (snd (load_books Use_Large_DB book_db book_lx_db env s))
   = collection_of docs).
Proof.
  unfold load_books.
  destruct (load_books_prologue s) as [n Hn].
  unfold l_bind in *.
  destruct (books_listed env s) as [[e|listed] s1].
  { discriminate. }
  destruct ((if listed then books_drop else l_ret tt) env s1) as [[e|[]] s2].
  { discriminate. }
  injection Hn as ->. split.
  - intros ->. split; reflexivity.
  - intros pre bad post docs -> Hdocs Hbad.
    rewrite (insert_rows_short pre post bad docs _ Hdocs Hbad). cbn.
    split; [reflexivity | now destruct docs].
Qed.
End LoaderProperties.

Section LoadThenSearch.
Context {E : ErrorCatalog} {R : MongoRegex}.

(** X22. After a load that ended normally, [search_book] with no criterion
    answers 200 if the snapshot had a row and 529 if it had none, whatever
    the catalogue held before the load. *)
Theorem load_then_search (env env' : Env) (s : Shelf) (w : World)
    (Use_Large_DB : bool) (book_db book_lx_db : option (list (list cell)))
    (rows : list (list cell)) (docs : list BookInfoDoc) :
  reliable env -> calm env' -> reliable env' ->
  (if Use_Large_DB then book_lx_db else book_db) = Some rows ->
  docs_of_rows rows = Some docs ->
  fst (search_book
         (contents (books (snd (load_books Use_Large_DB book_db book_lx_db
                                  env s))))
         "" "" "" "" env' w) =
  Ret (match rows with
       | [] => Pair 529 "No matching books found."
       | _ :: _ => Pair 200 "ok"
       end).
Proof.
  intros Hrel Hcalm' Hrel' Htable Hdocs. unfold load_books.
  destruct (load_books_prologue env Hrel s) as [n Hn].
  unfold l_bind in *.
  destruct (books_listed env s) as [[e|listed] s1].
  { discriminate. }
  destruct ((if listed then books_drop else l_ret tt) env s1) as [[e|[]] s2].
  { discriminate. }
  injection Hn as ->. rewrite Htable.
  rewrite (insert_rows_run env Hrel rows docs _ Hdocs). cbn [snd books].
  rewrite (search_book_reply env' w _ _ _ _ _ Hcalm' Hrel'). cbn.
  assert (H : forall l, filter (fun _ : BookInfoDoc => true) l = l).
  { induction l as [|d l IH]; simpl; [reflexivity | now rewrite IH]. }
  rewrite H.
  pose proof (docs_of_rows_length rows docs Hdocs) as Hlen.
  destruct docs, rows; try discriminate; reflexivity.
Qed.
End LoadThenSearch.

(** ** The statements at work on concrete runs *)

#[local] Existing Instance PlainJwt.lib.
#[local] Existing Instance catalog.

(** C1, on a run: the empty text as stored and as presented token. *)
Lemma check_token_decode_error_escapes_run :
  exists msg,
    __check_token "u1" "" "" (steady unix) (start empty_db)
    = (Raise (DecodeError msg), start empty_db).
Proof.
  apply (check_token_decode_error_escapes (J := PlainJwt.lib)).
  - exact PlainJwtFacts.laws.
  - simpl. lia.
Defined.

(** A user document without a [token] field and a caller presenting the
    empty text: [check_token] raises. *)
Example check_token_raises_without_stored_token :
  let db := with_user
              [ {| u_user_id := "u1"; u_password := Some "p1"; u_balance := 0;
                   u_token := None; u_terminal := None |} ] empty_db in
  fst (check_token "u1" "" (steady unix) (start db))
  = Raise (DecodeError "Not enough segments").
Proof. vm_compute. reflexivity. Qed.

(** C2 as stated fails: a second [login] from the same terminal while the
    clock has not moved returns the token of the first, and that token is
    still accepted. *)
Lemma second_login_can_reissue_token :
  let env := steady coarse in
  let w1 := run [Register "u1" "p1"] env (start empty_db) in
  let T := jwt_lib_encode (claims "u1" "t1" 1700000000) "u1" in
  let w2 := snd (login "u1" "p1" "t1" env w1) in
  let w3 := snd (login "u1" "p1" "t1" env w2) in
  fst (login "u1" "p1" "t1" env w1) = Ret (Triple 200 "ok" T) /\
  fst (login "u1" "p1" "t1" env w2) = Ret (Triple 200 "ok" T) /\
  fst (check_token "u1" T env w3) = Ret (Pair 200 "ok").
Proof.
  vm_compute. repeat split.
Qed.

(** C2, on a run where the clock has not moved: the token of a [login]
    from terminal [t1] is refused after a second [login] from terminal
    [t2] at the same clock reading. *)
Lemma rotation_invalidates_previous_token_run :
  let env := steady coarse in
  let w1 := run [Register "u1" "p1"] env (start empty_db) in
  let T := jwt_lib_encode (claims "u1" "t1" 1700000000) "u1" in
  let w2 := snd (login "u1" "p1" "t1" env w1) in
  let w3 := snd (login "u1" "p1" "t2" env w2) in
  fst (login "u1" "p1" "t1" env w1) = Ret (Triple 200 "ok" T) /\
  fst (check_token "u1" T env w3) = Ret (Pair 401 "authorization fail.").
Proof.
  intros env w1 T w2 w3. split; [vm_compute; reflexivity|].
  apply (rotation_invalidates_previous_token env (Login "u1" "p1" "t2") w2 w3
           (Triple 200 "ok" (jwt_lib_encode (claims "u1" "t2" 1700000000) "u1"))
           "u1" "t1" 1700000000
           PlainJwtFacts.laws catalog_laws
           (steady_calm coarse) (steady_reliable coarse)).
  - reflexivity.
  - intros H. vm_compute in H. discriminate H.
  - vm_compute. reflexivity.
  - reflexivity.
Defined.

(** The same for a [logout] and for a [change_password] within the same
    second: the terminal they sign is named after the clock, not [t1]. *)
Example rotation_within_one_second :
  let env := steady coarse in
  let w1 := run [Register "u1" "p1"] env (start empty_db) in
  let T := jwt_lib_encode (claims "u1" "t1" 1700000000) "u1" in
  let w2 := snd (login "u1" "p1" "t1" env w1) in
  fst (logout "u1" T env w2) = Ret (Pair 200 "ok") /\
  fst (check_token "u1" T env (snd (logout "u1" T env w2)))
  = Ret (Pair 401 "authorization fail.") /\
  fst (change_password "u1" "p1" "p2" env w2) = Ret (Pair 200 "ok") /\
  fst (check_token "u1" T env (snd (change_password "u1" "p1" "p2" env w2)))
  = Ret (Pair 401 "authorization fail.").
Proof. vm_compute. repeat split. Qed.

(** C3, on a run: the paid order is shipped once. *)
Lemma ship_order_decision_run :
  let env := steady unix in
  let out := ship_order "seller" "shop1" "o1" env (start market) in
  fst out = Ret (Pair 200 "ok") /\
  order_status "o1" (conn (snd out)) = Some "shipped" /\
  fst (ship_order "seller" "shop1" "o1" env (snd out))
  = Ret (Pair 400 "Order is not paid").
Proof.
  intros env out.
  destruct (ship_order_decision env (start market) "seller" "shop1" "o1"
              catalog_laws (steady_calm unix) (steady_reliable unix))
    as (Hiff & Hshipped & _ & _ & _ & Hagain).
  assert (Hok : fst out = Ret (Pair 200 "ok")).
  { apply Hiff. repeat split; vm_compute; reflexivity. }
  split; [exact Hok|]. split; [exact (Hshipped Hok)|].
  apply (Hagain Hok); vm_compute; reflexivity.
Defined.

(** C4, on a run: the store is down at the first call. *)
Lemma check_token_lets_store_error_through_run :
  let env := failing_once "connection refused" unix in
  fst (check_token "seller" "any" env (start market))
  = Raise (PyMongoError "connection refused") /\
  fst (check_password "seller" "pw1" env (start market))
  = Ret (Pair 528 "connection refused").
Proof.
  intros env. apply check_token_lets_store_error_through. reflexivity.
Defined.

(** C5 as stated fails: a restock by a negative delta, accepted with code
    200, leaves a listing below zero. *)
Lemma restock_can_make_stock_negative :
  let env := steady unix in
  let w := run [ Register "u1" "p1"; CreateStore "u1" "s1";
                 AddBook "u1" "s1" "b1" "{}" 10 ] env (start empty_db) in
  stock_ok (conn w) /\
  fst (add_stock_level "u1" "s1" "b1" (-20) env w) = Ret (Pair 200 "ok") /\
  ~ stock_ok (conn (snd (add_stock_level "u1" "s1" "b1" (-20) env w))).
Proof.
  intros env w. split; [|split].
  - vm_compute. repeat constructor. discriminate.
  - vm_compute. reflexivity.
  - intros H. vm_compute in H. inversion H as [|d l Hd Hl]. now apply Hd.
Qed.

(** C5, on a run with quantities that are not negative. *)
Lemma stock_level_stays_nonnegative_run :
  stock_ok (conn (run [ Register "u1" "p1"; CreateStore "u1" "s1";
                        AddBook "u1" "s1" "b1" "{}" 10;
                        AddStockLevel "u1" "s1" "b1" 5 ]
                   (steady unix) (start empty_db))).
Proof.
  apply stock_level_stays_nonnegative.
  - apply steady_calm.
  - repeat constructor; cbn; lia.
  - constructor.
Defined.

(** C6, on a run. *)
Lemma login_then_check_token_run :
  let env := steady unix in
  let w1 := run [Register "u1" "p1"] env (start empty_db) in
  let T := jwt_lib_encode (claims "u1" "t1" 1700000002) "u1" in
  fst (check_token "u1" T env (snd (login "u1" "p1" "t1" env w1)))
  = Ret (Pair 200 "ok").
Proof.
  intros env w1 T.
  apply (login_then_check_token env w1 _ "u1" "p1" "t1" T
           PlainJwtFacts.laws (steady_calm unix) (steady_reliable unix)).
  - vm_compute. reflexivity.
  - vm_compute. discriminate.
Defined.

(** C7, on a run: a second listing of the same book is refused and the
    collections are untouched. *)
Lemma failed_precondition_writes_nothing_run :
  let env := steady unix in
  let out := add_book "seller" "shop1" "b1" "{}" 3 env (start market) in
  fst out = Ret (Pair 516 "exist book id b1") /\ conn (snd out) = market.
Proof.
  intros env out. split; [vm_compute; reflexivity|].
  apply (failed_precondition_writes_nothing env
           (AddBook "seller" "shop1" "b1" "{}" 3) (start market) (snd out)
           (tuple (error_exist_book_id "b1"))
           catalog_laws (steady_calm unix)).
  - vm_compute. reflexivity.
  - constructor.
Defined.


(** C9, on a run: the user is deleted between the password check and the
    write; [change_password] still answers (200, "ok"). *)
Lemma change_password_ignores_matched_count_run :
  let env := deleting_before 1 "u1" unix in
  let w := start (conn (run [Register "u1" "p1"] (steady unix) (start empty_db))) in
  let out := change_password "u1" "p1" "p2" env w in
  has_user "u1" (conn w) = true /\
  fst out = Ret (Pair 200 "ok") /\
  has_user "u1" (conn (snd out)) = false.
Proof.
  intros env w out. split; [reflexivity|]. split; [|vm_compute; reflexivity].
  apply change_password_ignores_matched_count.
  - apply deleting_before_reliable.
  - reflexivity.
  - vm_compute. reflexivity.
Defined.

(** C9 as stated fails: the password check passes and the store answers,
    but the token library refuses the user id as key; [change_password]
    answers with code 530 and the password stays. *)
Lemma change_password_can_answer_530 :
  let env := steady unix in
  let out := change_password "ssh-rsa" "p1" "p2" env (start imported) in
  fst (check_password "ssh-rsa" "p1" env (start imported))
  = Ret (Pair 200 "ok") /\
  fst out
  = Ret (Pair 530 "The specified key is an asymmetric key or x509 certificate and should not be used as an HMAC secret.") /\
  conn (snd out) = imported.
Proof.
  vm_compute. repeat split.
Qed.

(** In the same race, [unregister] answers with the authorization
    failure. *)
Example unregister_race :
  let env := deleting_before 1 "u1" unix in
  let w := start (conn (run [Register "u1" "p1"] (steady unix) (start empty_db))) in
  fst (unregister "u1" "p1" env w) = Ret (Pair 401 "authorization fail.").
Proof. vm_compute. reflexivity. Qed.

(** C10, on a run: the buyer ships their own order through a shop that has
    nothing to do with it, with the result the seller would get. *)
Lemma ship_order_ignores_caller_run :
  ship_order "buyer" "shop2" "o1" (steady unix) (start market)
  = ship_order "seller" "shop1" "o1" (steady unix) (start market).
Proof.
  apply ship_order_ignores_caller;
    [apply steady_calm | reflexivity | reflexivity | reflexivity | reflexivity].
Defined.

(** ** Further runs *)

#[local] Existing Instance literal_regex.

(** X1, on a run. *)
Lemma register_twice_refused_run :
  let env := steady unix in
  let w1 := snd (register "u1" "p1" env (start empty_db)) in
  register "u1" "p2" env w1
  = (Ret (Pair 512 "exist user id u1"), later w1 (conn w1) 0 1).
Proof.
  intros env w1.
  refine (register_twice_refused env (start empty_db) w1 "u1" "p1" "p2"
            (steady_calm unix) (steady_reliable unix) _).
  vm_compute. reflexivity.
Defined.

(** X2, on a run. *)
Lemma register_then_login_run :
  let env := steady unix in
  let w1 := snd (register "u1" "p1" env (start empty_db)) in
  fst (login "u1" "p1" "t1" env w1)
  = Ret (Triple 200 "ok" (jwt_lib_encode (claims "u1" "t1" 1700000002) "u1")) /\
  fst (login "u1" "guess" "t1" env w1)
  = Ret (Triple 401 "authorization fail." "").
Proof.
  intros env w1.
  destruct (register_then_login env (start empty_db) w1 "u1" "p1" "t1"
              catalog_laws (steady_calm unix) (steady_reliable unix))
    as [Hok Hbad].
  - vm_compute. reflexivity.
  - split; [exact Hok|]. apply Hbad. discriminate.
Defined.

(** X3, on a run: [seller] leaves, [buyer] stays. *)
Lemma unregister_removes_account_run :
  let env := steady unix in
  let w1 := snd (unregister "seller" "pw1" env (start market)) in
  has_user "seller" (conn w1) = false /\
  fst (login "seller" "pw1" "t1" env w1)
  = Ret (Triple 401 "authorization fail." "").
Proof.
  intros env w1.
  destruct (unregister_removes_account env (start market) w1 "seller" "pw1"
              catalog_laws (steady_calm unix) (steady_reliable unix))
    as (_ & Hgone & Hlogin).
  - vm_compute. repeat constructor; cbn; intuition discriminate.
  - vm_compute. reflexivity.
  - split; [exact Hgone | exact (Hlogin "pw1" "t1")].
Defined.

(** X4, on a run. *)
Lemma change_password_then_login_run :
  let env := steady unix in
  let w1 := snd (change_password "seller" "pw1" "pw9" env (start market)) in
  (exists tok,
     fst (login "seller" "pw9" "t1" env w1) = Ret (Triple 200 "ok" tok)) /\
  fst (login "seller" "pw1" "t1" env w1)
  = Ret (Triple 401 "authorization fail." "").
Proof.
  intros env w1.
  destruct (change_password_then_login env (start market) w1
              "seller" "pw1" "pw9" "t1"
              catalog_laws (steady_calm unix) (steady_reliable unix))
    as [Hnew Hold].
  - vm_compute. reflexivity.
  - split; [exact Hnew | apply Hold; discriminate].
Defined.

(** X5, on a run with the store down at the first call. *)
Lemma login_answers_with_triple_run :
  exists code message token,
    fst (login "seller" "pw1" "t1" (failing_once "connection refused" unix)
           (start market))
    = Ret (Triple code message token).
Proof.
  apply login_answers_with_triple.
  - exact catalog_laws.
  - apply failing_once_calm.
Defined.

(** X6, on a run: [unregister] of a user who owns a shop. *)
Lemma calls_write_one_collection_run :
  same_except Users market
    (conn (snd (exec (Unregister "seller" "pw1") (steady unix) (start market)))).
Proof.
  apply (calls_write_one_collection (steady unix)
           (Unregister "seller" "pw1") (start market)).
  apply steady_calm.
Defined.

(** X7, on a run. *)
Lemma accounts_kept_run :
  credentials (conn (snd (exec (Login "seller" "pw1" "t1") (steady unix)
                            (start market))))
  = credentials market.
Proof.
  apply (accounts_kept (steady unix) (Login "seller" "pw1" "t1") (start market)).
  - apply steady_calm.
  - exact I.
Defined.

(** X8, on a run. *)
Lemma orders_move_forward_run :
  Forall2 order_step (order_history market)
    (order_history
       (conn (run [ ShipOrder "seller" "shop1" "o1";
                    ShipOrder "seller" "shop1" "o1";
                    Unregister "buyer" "pw2" ]
                (steady unix) (start market)))).
Proof.
  apply (orders_move_forward (steady unix) _ (start market)).
  apply steady_calm.
Defined.

(** X9, on a run from the empty collections. *)
Lemma keys_stay_unique_run :
  unique_keys
    (conn (run [ Register "u1" "p1"; Register "u1" "p2";
                 CreateStore "u1" "s1"; CreateStore "u1" "s1";
                 AddBook "u1" "s1" "b1" "{}" 1;
                 AddBook "u1" "s1" "b1" "{}" 2 ]
             (steady unix) (start empty_db))).
Proof.
  apply keys_stay_unique.
  - apply steady_calm.
  - repeat split; constructor.
Defined.

(** X10, on a run: a stock level of 2^63. *)
Lemma add_book_decision_run :
  add_book "seller" "shop1" "b2" "{}" 9223372036854775808
    (steady unix) (start market)
  = (Ret (Pair 530 "MongoDB can only handle up to 8-byte ints"),
     later (start market) market 0 3).
Proof.
  destruct (add_book_decision (steady unix) (start market)
              "seller" "shop1" "b2" "{}" 9223372036854775808
              (steady_calm unix) (steady_reliable unix))
    as (_ & _ & _ & Hbig & _).
  exact (Hbig eq_refl eq_refl eq_refl eq_refl).
Defined.

(** X11, on a run. *)
Lemma add_book_twice_refused_run :
  let env := steady unix in
  let w1 := snd (add_book "seller" "shop1" "b2" "{}" 4 env (start market)) in
  add_book "buyer" "shop1" "b2" "{}" 9 env w1
  = (Ret (Pair 516 "exist book id b2"), later w1 (conn w1) 0 3) /\
  stock_of "shop1" "b2" (conn w1) = Some 4.
Proof.
  intros env w1.
  refine (add_book_twice_refused env (start market) w1
            "seller" "buyer" "shop1" "b2" "{}" "{}" 4 9
            catalog_laws (steady_calm unix) (steady_reliable unix) _ _).
  - vm_compute. reflexivity.
  - reflexivity.
Defined.

(** X12, on a run: 10 in stock, 5 more. *)
Lemma add_stock_level_adds_run :
  let env := steady unix in
  let w1 := snd (add_stock_level "seller" "shop1" "b1" 5 env (start market)) in
  stock_of "shop1" "b1" (conn w1) = Some 15.
Proof.
  intros env w1.
  destruct (add_stock_level_adds env (start market) w1 "seller" "shop1" "b1" 5
              catalog_laws (steady_calm unix) (steady_reliable unix))
    as [(old & Hold & Hnew) _].
  - vm_compute. reflexivity.
  - rewrite Hnew. vm_compute in Hold. injection Hold as <-. reflexivity.
Defined.

(** X13, on a run: 5 more, then 8 fewer, as 3 fewer. *)
Lemma restocks_add_up_run :
  let env := steady unix in
  let w1 := snd (add_stock_level "seller" "shop1" "b1" 5 env (start market)) in
  let w2 := snd (add_stock_level "buyer" "shop1" "b1" (-8) env w1) in
  let out := add_stock_level "seller" "shop1" "b1" (5 + -8) env (start market) in
  fst out = Ret (Pair 200 "ok") /\ conn (snd out) = conn w2.
Proof.
  intros env w1 w2 out.
  refine (restocks_add_up env (start market) w1 w2
            "seller" "buyer" "seller" "shop1" "b1" 5 (-8)
            catalog_laws (steady_calm unix) (steady_reliable unix) _ _ _ _).
  - vm_compute. reflexivity.
  - vm_compute. reflexivity.
  - reflexivity.
  - reflexivity.
Defined.

(** Without the two successes the sums differ: the driver refuses the
    delta 2^63 and the store applies -2^63, where one restock by 0 leaves
    the stock at 10. *)
Example refused_restock_is_not_applied :
  let env := steady unix in
  let w1 := snd (add_stock_level "seller" "shop1" "b1" 9223372036854775808
                   env (start market)) in
  let w2 := snd (add_stock_level "seller" "shop1" "b1" (-9223372036854775808)
                   env w1) in
  fst (add_stock_level "seller" "shop1" "b1" 9223372036854775808
         env (start market))
  = Ret (Pair 530 "MongoDB can only handle up to 8-byte ints") /\
  stock_of "shop1" "b1" (conn w2) = Some (10 - 9223372036854775808) /\
  stock_of "shop1" "b1"
    (conn (snd (add_stock_level "seller" "shop1" "b1" 0 env (start market))))
  = Some 10.
Proof. vm_compute. repeat split. Qed.

(** X14, on a run: [buyer] restocks a shop of [seller]. *)
Lemma listings_ignore_ownership_run :
  add_book "buyer" "shop1" "b2" "{}" 3 (steady unix) (start market)
  = add_book "seller" "shop1" "b2" "{}" 3 (steady unix) (start market) /\
  add_stock_level "buyer" "shop1" "b2" (-4) (steady unix) (start market)
  = add_stock_level "seller" "shop1" "b2" (-4) (steady unix) (start market).
Proof.
  apply listings_ignore_ownership;
    [apply steady_calm | reflexivity | reflexivity].
Defined.

(** X15, on a run. *)
Lemma create_store_decision_run :
  let env := steady unix in
  let out := create_store "buyer" "shop3" env (start market) in
  fst out = Ret (Pair 200 "ok") /\
  owner_of "shop3" (conn (snd out)) = Some "buyer" /\
  fst (create_store "seller" "shop3" env (snd out))
  = Ret (Pair 514 "exist store id shop3").
Proof.
  intros env out.
  destruct (create_store_decision env (start market) "buyer" "shop3"
              (steady_calm unix) (steady_reliable unix))
    as (_ & _ & Hnew).
  destruct (Hnew eq_refl eq_refl) as (Hok & Howner & Hagain).
  split; [exact Hok|]. split; [exact Howner|].
  fold out in Hagain. rewrite (Hagain "seller" eq_refl). reflexivity.
Defined.

(** X16, on a run with the store down. *)
Lemma search_book_answers_and_reads_only_run :
  let env := failing_once "connection refused" unix in
  (exists answer,
     fst (search_book loaded_books "Prince" "" "" "shop1" env (start market))
     = Ret answer) /\
  conn (snd (search_book loaded_books "Prince" "" "" "shop1" env
               (start market))) = market.
Proof.
  intros env.
  apply (search_book_answers_and_reads_only env (start market)).
  apply failing_once_calm.
Defined.

(** X17, on a run: [shop2] exists and lists nothing. *)
Lemma search_book_needs_listing_run :
  has_store "shop2" market = true /\
  fst (search_book loaded_books "" "" "" "shop2" (steady unix) (start market))
  = Ret (Pair 513 "non exist store id shop2").
Proof.
  split; [reflexivity|].
  refine (search_book_needs_listing (steady unix) (start market)
            loaded_books "" "" "" "shop2"
            (steady_calm unix) (steady_reliable unix) _ _);
    [discriminate | reflexivity].
Defined.

(** X18, on a run. *)
Lemma search_book_no_criterion_run :
  fst (search_book loaded_books "" "" "" "" (steady unix) (start market))
  = Ret (Pair 200 "ok") /\
  fst (search_book [] "" "" "" "" (steady unix) (start market))
  = Ret (Pair 529 "No matching books found.").
Proof.
  split.
  - apply (search_book_no_criterion (steady unix) (start market) loaded_books);
      [apply steady_calm | apply steady_reliable].
  - apply (search_book_no_criterion (steady unix) (start market) []);
      [apply steady_calm | apply steady_reliable].
Defined.

(** X19, on a run. *)
Lemma search_book_relaxed_run :
  fst (search_book loaded_books "Prince" "pilot" "fable" "shop1"
         (steady unix) (start market)) = Ret (Pair 200 "ok") /\
  fst (search_book loaded_books "" "pilot" "fable" ""
         (steady unix) (start market)) = Ret (Pair 200 "ok").
Proof.
  assert (H : fst (search_book loaded_books "Prince" "pilot" "fable" "shop1"
                     (steady unix) (start market)) = Ret (Pair 200 "ok")).
  { vm_compute. reflexivity. }
  split; [exact H|].
  apply (search_book_relaxed (steady unix) (start market) loaded_books
           "Prince" "pilot" "fable" "shop1" "" "pilot" "fable" ""
           catalog_laws (steady_calm unix) (steady_reliable unix)).
  - right. reflexivity.
  - left. reflexivity.
  - left. reflexivity.
  - right. reflexivity.
  - exact H.
Defined.

(** X20, on a run: loading over a catalogue left from an earlier load. *)
Lemma load_books_replaces_run :
  let out := load_books true None (Some [row "b5" "Emma" "a match" "novel"])
               (steady unix) stale_shelf in
  fst out = inr tt /\
  option_map (map bk_id) (books (snd out)) = Some [CText "b5"].
Proof.
  intros out.
  destruct (load_books_replaces (steady unix) (steady_reliable unix)
              stale_shelf true None
              (Some [row "b5" "Emma" "a match" "novel"])
              [row "b5" "Emma" "a match" "novel"]
              (match docs_of_rows [row "b5" "Emma" "a match" "novel"] with
               | Some l => l | None => [] end)
              eq_refl eq_refl) as (Hok & Hbooks & _).
  split; [exact Hok|]. fold out in Hbooks. rewrite Hbooks. reflexivity.
Defined.

(** X21, on a run: the second row has three columns. *)
Lemma load_books_stops_midway_run :
  let rows := [ row "b5" "Emma" "a match" "novel";
                [CText "b6"; CText "Persuasion"; CNull] ] in
  let out := load_books false (Some rows) None (steady unix) stale_shelf in
  fst out = inl (IndexError "tuple index out of range") /\
  option_map (map bk_id) (books (snd out)) = Some [CText "b5"] /\
  books (snd (load_books true (Some rows) None (steady unix) stale_shelf))
  = None.
Proof.
  intros rows out.
  destruct (load_books_stops_midway (steady unix) (steady_reliable unix)
              stale_shelf false (Some rows) None) as [_ Hshort].
  destruct (Hshort [row "b5" "Emma" "a match" "novel"]
              [CText "b6"; CText "Persuasion"; CNull] []
              (match docs_of_rows [row "b5" "Emma" "a match" "novel"] with
               | Some l => l | None => [] end)
              eq_refl eq_refl eq_refl) as [Herr Hbooks].
  split; [exact Herr|]. split.
  - fold out in Hbooks. rewrite Hbooks. reflexivity.
  - destruct (load_books_stops_midway (steady unix) (steady_reliable unix)
                stale_shelf true (Some rows) None) as [Hnone _].
    exact (proj2 (Hnone eq_refl)).
Defined.

(** X22, on a run. *)
Lemma load_then_search_run :
  fst (search_book
         (contents (books (snd (load_books false (Some snapshot) None
                                  (steady unix) stale_shelf))))
         "" "" "" "" (steady unix) (start market))
  = Ret (Pair 200 "ok").
Proof.
  apply (load_then_search (steady unix) (steady unix) stale_shelf
           (start market) false (Some snapshot) None snapshot
           (match docs_of_rows snapshot with Some l => l | None => [] end)
           (steady_reliable unix) (steady_calm unix) (steady_reliable unix)
           eq_refl eq_refl).
Defined.


(** X24, on a run. *)
Lemma register_opens_account_run :
  let env := steady unix in
  let w1 := snd (register "u3" "p3" env (start market)) in
  credentials (conn w1) = (credentials market ++ [("u3", Some "p3", 0)])%list /\
  exists tok,
    stored_token "u3" (conn w1) = Some tok /\
    fst (check_token "u3" tok env w1) = Ret (Pair 200 "ok").
Proof.
  intros env w1.
  destruct (register_opens_account env (start market) "u3" "p3"
              PlainJwtFacts.laws (steady_calm unix) (steady_reliable unix)
              eq_refl eq_refl) as (_ & Hcred & tok & Hst & Hcheck).
  split; [exact Hcred|]. exists tok. split; [exact Hst|].
  apply Hcheck. vm_compute. discriminate.
Defined.

(** X25, on a run: [login] for the imported record, whose user id the
    token library refuses, ends with a reply. *)
Lemma guarded_calls_answer_run :
  exists r,
    fst (exec (Login "ssh-rsa" "p1" "t1") (steady unix) (start imported))
    = Ret r.
Proof.
  apply (guarded_calls_answer (steady unix) (Login "ssh-rsa" "p1" "t1")
           (start imported)).
  exact I.
Defined.

(** The reply is that of [except Exception]. *)
Example login_refused_key :
  fst (login "ssh-rsa" "p1" "t1" (steady unix) (start imported))
  = Ret (Triple 530 "The specified key is an asymmetric key or x509 certificate and should not be used as an HMAC secret." "").
Proof. vm_compute. reflexivity. Qed.

(** X27, on a run: registering a user id that reads like an SSH key. *)
Lemma register_refused_key_run :
  let out := register "ssh-rsa" "p1" (steady unix) (start market) in
  fst out
  = Raise (InvalidKeyError "The specified key is an asymmetric key or x509 certificate and should not be used as an HMAC secret.") /\
  conn (snd out) = market.
Proof.
  apply (register_refused_key (steady unix) (start market) "ssh-rsa" "p1");
    [apply steady_calm | apply steady_reliable | reflexivity | reflexivity].
Defined.

(** X26, on a run with a clock that leaps 4000 seconds per reading. *)
Lemma login_then_late_check_token_run :
  let env := steady leaping in
  let T := jwt_lib_encode (claims "seller" "t1" 1700000000) "seller" in
  fst (login "seller" "pw1" "t1" env (start market))
  = Ret (Triple 200 "ok" T) /\
  fst (check_token "seller" T env
         (snd (login "seller" "pw1" "t1" env (start market))))
  = Ret (Pair 401 "authorization fail.").
Proof.
  intros env T. split; [vm_compute; reflexivity|].
  refine (login_then_late_check_token env (start market) _
            "seller" "pw1" "t1" T
            PlainJwtFacts.laws (steady_calm leaping) (steady_reliable leaping)
            _ _).
  - vm_compute. reflexivity.
  - vm_compute. reflexivity.
Defined.
